(** * publish-nuget: a model of [index.js]

    The action is one class, [Action], whose constructor registers the
    registry with the build toolchain and whose [run] method resolves a
    version, asks the registry whether that version exists and, when it
    does not, builds, packs and pushes the package.

    JavaScript strings are modelled by [string] (sequences of bytes, the
    UTF-8 image of the text).  Every separator the program searches for
    (space, dot, slash, star, dollar) is an ASCII character, and an ASCII
    byte never occurs inside a multi-byte UTF-8 sequence, so positions of
    those characters agree with the UTF-16 view of the source. *)

From Stdlib Require Import String Ascii List Bool Arith Lia DecimalString.
Import ListNotations.
Local Open Scope list_scope.
Local Open Scope string_scope.

Set Implicit Arguments.

(** ** Strings *)

Module Str.

Lemma append_nil_r (s : string) : s ++ "" = s.
Proof. induction s as [|c s IH]; simpl; [reflexivity | now rewrite IH]. Qed.

Lemma append_assoc (s t u : string) : (s ++ t) ++ u = s ++ (t ++ u).
Proof. induction s as [|c s IH]; simpl; [reflexivity | now rewrite IH]. Qed.

(** [s.startsWith(p)] *)
Fixpoint startsWith (p s : string) : bool :=
  match p, s with
  | EmptyString, _ => true
  | String _ _, EmptyString => false
  | String a p', String b s' => Ascii.eqb a b && startsWith p' s'
  end.

(** [s.includes(p)]: some suffix of [s] starts with [p]. *)
Fixpoint includes (p s : string) : bool :=
  startsWith p s ||
  match s with
  | EmptyString => false
  | String _ s' => includes p s'
  end.

Fixpoint rev_onto (s acc : string) : string :=
  match s with
  | EmptyString => acc
  | String c s' => rev_onto s' (String c acc)
  end.

Definition rev (s : string) : string := rev_onto s "".

(** [s.endsWith(p)] *)
Definition endsWith (p s : string) : bool := startsWith (rev p) (rev s).

(** Drop the first [n] characters. *)
Fixpoint drop (n : nat) (s : string) : string :=
  match n, s with
  | O, _ => s
  | S _, EmptyString => EmptyString
  | S n', String _ s' => drop n' s'
  end.

(** [s.split(c)] for a separator of one character: the fields between
    the separators, so that the result is never empty. *)
Fixpoint split_from (c : ascii) (s cur : string) : list string :=
  match s with
  | EmptyString => [rev cur]
  | String a s' =>
      if Ascii.eqb a c then rev cur :: split_from c s' ""
      else split_from c s' (String a cur)
  end.

Definition split (c : ascii) (s : string) : list string := split_from c s "".

(** [xs.join(sep)] *)
Fixpoint join (sep : string) (xs : list string) : string :=
  match xs with
  | [] => ""
  | [x] => x
  | x :: rest => x ++ sep ++ join sep rest
  end.

(** Is character [c] absent from [s]? *)
Fixpoint lacks (c : ascii) (s : string) : bool :=
  match s with
  | EmptyString => true
  | String a s' => negb (Ascii.eqb a c) && lacks c s'
  end.

(** ASCII lower-casing, the restriction of [toLowerCase] to the URLs the
    action handles; bytes outside [A-Z] stay as they are. *)
Definition lower_ascii (c : ascii) : ascii :=
  let n := nat_of_ascii c in
  if ((65 <=? n) && (n <=? 90))%nat then ascii_of_nat (n + 32) else c.

Fixpoint toLowerCase (s : string) : string :=
  match s with
  | EmptyString => EmptyString
  | String c s' => String (lower_ascii c) (toLowerCase s')
  end.

End Str.

(** ** JavaScript library functions the action calls *)

Module Js.

(** A value that is a string or [undefined] ([this.version] after
    [parsedVersion[1]]), or a string or [null] (a captured [stdout]). *)
Definition falsy (v : option string) : bool :=
  match v with
  | None => true
  | Some EmptyString => true
  | Some (String _ _) => false
  end.

(** Interpolation [`${v}`] of a string-or-undefined value. *)
Definition show (v : option string) : string :=
  match v with Some s => s | None => "undefined" end.

(** Interpolation or [String(v)] of a string-or-null value. *)
Definition show_null (v : option string) : string :=
  match v with Some s => s | None => "null" end.

(** First occurrence of [p] in [s]: the text before it and the text
    after it. *)
Fixpoint find_from (p s before_rev : string) : option (string * string) :=
  if Str.startsWith p s then Some (Str.rev before_rev, Str.drop (String.length p) s)
  else match s with
       | EmptyString => None
       | String c s' => find_from p s' (String c before_rev)
       end.

Definition find (p s : string) : option (string * string) := find_from p s "".

(** GetSubstitution for a string pattern: there are no captures, so
    only [$$], [$&], [$`] and [$'] are special. *)
Definition is_dollar_escape (c : ascii) : bool :=
  Ascii.eqb c "$" || Ascii.eqb c "&" || Ascii.eqb c "`" || Ascii.eqb c "'".

Fixpoint getSubstitution (matched before after r : string) : string :=
  match r with
  | EmptyString => EmptyString
  | String c rest =>
      if Ascii.eqb c "$" then
        match rest with
        | EmptyString => String c EmptyString
        | String d r' =>
            if Ascii.eqb d "$" then String "$" (getSubstitution matched before after r')
            else if Ascii.eqb d "&" then matched ++ getSubstitution matched before after r'
            else if Ascii.eqb d "`" then before ++ getSubstitution matched before after r'
            else if Ascii.eqb d "'" then after ++ getSubstitution matched before after r'
            else String c (getSubstitution matched before after rest)
        end
      else String c (getSubstitution matched before after rest)
  end.

(** [s.replace(p, r)] with a string pattern [p]: the first occurrence
    only. *)
Definition replace (p r s : string) : string :=
  match find p s with
  | None => s
  | Some (before, after) => before ++ getSubstitution p before after r ++ after
  end.

(** POSIX [path.basename(p)]: scan from the end, skip trailing slashes,
    collect up to the next slash. *)
Fixpoint basename_scan (rp : string) (matchedSlash : bool) (acc : string) : string :=
  match rp with
  | EmptyString => acc
  | String c rest =>
      if Ascii.eqb c "/" then
        if matchedSlash then basename_scan rest true acc else acc
      else basename_scan rest false (String c acc)
  end.

Definition basename (p : string) : string := basename_scan (Str.rev p) true "".

(** [xs.slice(0, -1)] *)
Definition slice_0_m1 (A : Type) (xs : list A) : list A := removelast xs.

(** The text [/error.*/] matches at the start of [s]: up to the first
    line terminator (LF, CR, U+2028, U+2029). *)
Fixpoint upto_line_end (s : string) : string :=
  match s with
  | EmptyString => EmptyString
  | String c s' =>
      if Ascii.eqb c "010" || Ascii.eqb c "013" then EmptyString
      else if Str.startsWith (String "226" (String "128" (String "168" ""))) s
           || Str.startsWith (String "226" (String "128" (String "169" ""))) s
      then EmptyString
      else String c (upto_line_end s')
  end.

(** [/error.*/.exec(s)[0]], when [/error/.test(s)]. *)
Definition exec_error_line (s : string) : option string :=
  match find "error" s with
  | None => None
  | Some (_, after) => Some ("error" ++ upto_line_end after)
  end.

End Js.

(** Values produced by [JSON.parse].  A number is carried as the text
    [String(n)] gives for it. *)
#[warnings="-register-all"]
Inductive json : Type :=
| JNull
| JBool (b : bool)
| JNum (repr : string)
| JStr (s : string)
| JArr (xs : list json)
| JObj (fields : list (string * json)).

Module Json.

Fixpoint lookup (k : string) (fields : list (string * json)) : option json :=
  match fields with
  | [] => None
  | (k', v) :: rest => if String.eqb k k' then Some v else lookup k rest
  end.

(** ToBoolean *)
Definition truthy (j : json) : bool :=
  match j with
  | JNull => false
  | JBool b => b
  | JNum r => negb (String.eqb r "0")
  | JStr s => negb (String.eqb s "")
  | JArr _ | JObj _ => true
  end.

(** ToString; [None] is a TypeError (an object whose own [toString]
    property is not callable). *)
Fixpoint toString (j : json) : option string :=
  match j with
  | JNull => Some "null"
  | JBool true => Some "true"
  | JBool false => Some "false"
  | JNum r => Some r
  | JStr s => Some s
  | JArr xs =>
      option_map (Str.join ",")
        ((fix elems (l : list json) : option (list string) :=
            match l with
            | [] => Some []
            | x :: r =>
                match (match x with JNull => Some "" | _ => toString x end), elems r with
                | Some a, Some b => Some (a :: b)
                | _, _ => None
                end
            end) xs)
  | JObj fields =>
      match lookup "toString" fields with
      | Some _ => None
      | None => Some "[object Object]"
      end
  end.

(** [x === v] for an element [x] of a parsed array and a value [v] that
    is a string or [undefined]. *)
Definition strict_eq (x : json) (v : option string) : bool :=
  match x, v with
  | JStr s, Some t => String.eqb s t
  | _, _ => false
  end.

(** [j.versions]: [None] is a TypeError (property of [null]),
    [Some None] is [undefined]. *)
Definition get_versions (j : json) : option (option json) :=
  match j with
  | JNull => None
  | JObj fields => Some (lookup "versions" fields)
  | _ => Some None
  end.

(** [vs.indexOf(v) < 0]: [None] is a TypeError ([indexOf] is not a
    function of [vs]). *)
Definition indexOf_negative (vs : option json) (v : option string) : option bool :=
  match vs with
  | Some (JArr xs) => Some (negb (existsb (fun x => strict_eq x v) xs))
  | Some (JStr s) => Some (negb (Str.includes (Js.show v) s))
  | _ => None
  end.

End Json.

(** ** The platform: file system, subprocesses, HTTP *)

(** A compiled [RegExp] (flag [m], not global, so [exec] keeps no
    position): its printed form and its [exec], which gives the match
    array (element 0 the match, then the capture groups, [None] for
    [undefined]). *)
Record RegExp : Type := {
  regex_text : string;
  regex_exec : string -> option (list (option string))
}.

(** The [options] argument of [https.get]. *)
Inductive HttpOptions : Type :=
| BasicAuth (auth : string)
| UserAgent (agent : string).

(** What the request ends in: a response (with its whole body) or the
    request's [error] event. *)
Inductive HttpOutcome : Type :=
| Response (statusCode : nat) (statusMessage body : string)
| TransportError (message : string).

Class Platform : Type := {
  World : Type;
  existsSync : string -> World -> bool;
  readFileSync : string -> World -> option string;
  (** [fs.readdirSync('.')] *)
  readdirSync : World -> list string;
  unlinkSync : string -> World -> option World;
  (** [spawnSync(tool, args, options).stdout]: [None] is [null];
      the flag tells whether stdio is inherited. *)
  spawnSync : string -> list string -> bool -> World -> option string * World;
  path_resolve : string -> World -> string;
  https_get : string -> HttpOptions -> World -> HttpOutcome;
  JSON_parse : string -> option json;
  (** [new RegExp(text, 'm')] *)
  RegExp_new : string -> option RegExp;
  EOL : string
}.

Inductive Exn : Type :=
| JsError (msg : string)
| TypeError
| SyntaxError
| SystemError.

(** What a run does that can be observed from outside.  [LogEcho] is
    [core.info] applied to a captured [stdout]; [LogInfo] is [core.info]
    applied to a message the action composes itself. *)
Inductive Event : Type :=
| LogInfo (msg : string)
| LogEcho (out : option string)
| LogDebug (msg : string)
| LogWarning (msg : string)
| LogError (msg : string)
| Spawn (tool : string) (args : list string) (inherit : bool)
| Unlink (fn : string)
| StdoutWrite (text : string)
| HttpGet (url : string) (options : HttpOptions).

Inductive SourceType : Type := GPR | NuGet.

Definition SourceType_eqb (x y : SourceType) : bool :=
  match x, y with
  | GPR, GPR | NuGet, NuGet => true
  | _, _ => false
  end.

(** The fields of [this]. *)
Record Action : Type := {
  projectFile : string;
  packageName : string;
  versionFile : string;
  versionRegex : RegExp;
  version : option string;
  tagCommit : json;
  tagFormat : string;
  nugetKey : string;
  nugetSource : string;
  includeSymbols : json;
  errorContinue : json;
  noBuild : json;
  signingCert : string;
  githubUser : string;
  sourceName : string;
  sourceType : option SourceType
}.

Definition set_packageName (a : Action) (n : string) : Action :=
  {| projectFile := projectFile a; packageName := n; versionFile := versionFile a;
     versionRegex := versionRegex a; version := version a; tagCommit := tagCommit a;
     tagFormat := tagFormat a; nugetKey := nugetKey a; nugetSource := nugetSource a;
     includeSymbols := includeSymbols a; errorContinue := errorContinue a;
     noBuild := noBuild a; signingCert := signingCert a; githubUser := githubUser a;
     sourceName := sourceName a; sourceType := sourceType a |}.

Definition set_version (a : Action) (v : option string) : Action :=
  {| projectFile := projectFile a; packageName := packageName a; versionFile := versionFile a;
     versionRegex := versionRegex a; version := v; tagCommit := tagCommit a;
     tagFormat := tagFormat a; nugetKey := nugetKey a; nugetSource := nugetSource a;
     includeSymbols := includeSymbols a; errorContinue := errorContinue a;
     noBuild := noBuild a; signingCert := signingCert a; githubUser := githubUser a;
     sourceName := sourceName a; sourceType := sourceType a |}.

Definition nonempty (s : string) : bool := negb (String.eqb s "").

Definition nat_to_string (n : nat) : string :=
  DecimalString.NilZero.string_of_uint (Nat.to_uint n).

(** ** Effects: a trace of events, the world, and exceptions *)

Section Effects.

Context {P : Platform}.

Record Result (A : Type) : Type := {
  trace : list Event;
  world : World;
  outcome : Exn + A
}.

Definition M (A : Type) : Type := World -> Result A.

Definition ret {A} (x : A) : M A :=
  fun w => {| trace := []; world := w; outcome := inr x |}.

Definition throw {A} (e : Exn) : M A :=
  fun w => {| trace := []; world := w; outcome := inl e |}.

Definition bind {A B} (m : M A) (f : A -> M B) : M B :=
  fun w =>
    let r := m w in
    match outcome r with
    | inl e => {| trace := trace r; world := world r; outcome := inl e |}
    | inr x =>
        let r' := f x (world r) in
        {| trace := trace r ++ trace r'; world := world r'; outcome := outcome r' |}
    end.

Definition emit (e : Event) : M unit :=
  fun w => {| trace := [e]; world := w; outcome := inr tt |}.

Definition ask {A} (f : World -> A) : M A :=
  fun w => {| trace := []; world := w; outcome := inr (f w) |}.

Definition when (b : bool) (m : M unit) : M unit := if b then m else ret tt.

Fixpoint forEach {A} (f : A -> M unit) (xs : list A) : M unit :=
  match xs with
  | [] => ret tt
  | x :: rest => bind (f x) (fun _ => forEach f rest)
  end.

End Effects.

Declare Scope action_scope.
Delimit Scope action_scope with action.
Notation "x <- m ;; k" := (bind m (fun x => k))
  (at level 61, m at next level, right associativity) : action_scope.
Notation "m ;; k" := (bind m (fun _ => k))
  (at level 61, right associativity) : action_scope.

(** ** The class [Action] *)

Section ActionMethods.

Context {P : Platform}.
Local Open Scope action_scope.

Definition core_info (msg : string) : M unit := emit (LogInfo msg).
Definition core_debug (msg : string) : M unit := emit (LogDebug msg).
Definition core_warning (msg : string) : M unit := emit (LogWarning msg).
Definition core_error (msg : string) : M unit := emit (LogError msg).

(** [core.info(out)] for a captured [stdout] (a string or [null]). *)
Definition core_info_stdout (out : option string) : M unit := emit (LogEcho out).

Definition stdout_write (text : string) : M unit := emit (StdoutWrite text).

Definition _validateInputs (a : Action) : M unit :=
  when (negb (Js.falsy (version a)) && nonempty (versionFile a))
    (core_info "You provided 'version', extract-* keys are being ignored").

Definition _printErrorAndExit {A} (msg : string) : M A :=
  core_error ("😭 " ++ msg) ;;
  throw (JsError msg).

Definition _printError (a : Action) (msg : string) : M unit :=
  if Json.truthy (errorContinue a) then core_warning ("😢 " ++ msg)
  else
    core_error ("😭 " ++ msg) ;;
    throw (JsError msg).

Definition _executeCommand (cmd : string) (inherit : bool) : M (option string) :=
  core_info ("executing: [" ++ cmd ++ "]") ;;
  let INPUT := Str.split " " cmd in
  let TOOL := hd "" INPUT in
  let ARGS := tl INPUT in
  emit (Spawn TOOL ARGS inherit) ;;
  fun w =>
    let (out, w') := spawnSync TOOL ARGS inherit w in
    {| trace := []; world := w'; outcome := inr out |}.

Definition _executeInProcess (cmd : string) : M unit :=
  _executeCommand cmd true ;; ret tt.

Definition TAG (a : Action) (version : option string) : string :=
  Js.replace "*" (Js.show version) (tagFormat a).

Definition _tagCommit (a : Action) (version : option string) : M unit :=
  let TAG := TAG a version in
  core_info ("✨ creating new tag " ++ TAG) ;;
  _executeInProcess ("git tag " ++ TAG) ;;
  _executeInProcess ("git push origin " ++ TAG) ;;
  stdout_write ("::set-output name=VERSION::" ++ TAG ++ EOL).

Definition _generatePackArgs (a : Action) : string :=
  "--no-build -c Release -p:PackageVersion=" ++ Js.show (version a) ++ " "
  ++ (if Json.truthy (includeSymbols a)
      then "--include-symbols -p:SymbolPackageFormat=snupkg" else "")
  ++ " --no-build -c Release".

Definition sourceType_is (a : Action) (t : SourceType) : bool :=
  match sourceType a with
  | Some t' => SourceType_eqb t' t
  | None => false
  end.

Definition pushCmd (a : Action) (nupkg : string) : string :=
  "dotnet nuget push " ++ nupkg ++ " -s " ++ sourceName a ++ " "
  ++ (if negb (sourceType_is a GPR) then "-k " ++ nugetKey a else "")
  ++ "--skip-duplicate"
  ++ (if negb (Json.truthy (includeSymbols a)) then " -n" else "").

(** The body of the [forEach] over the packages. *)
Definition push_one (a : Action) (nupkg : string) : M unit :=
  when (nonempty (signingCert a))
    (_executeInProcess ("dotnet nuget sign " ++ nupkg ++ " -CertificatePath "
                        ++ signingCert a ++ " -Timestamper http://timestamp.digicert.com")) ;;
  pushOutput <- _executeCommand (pushCmd a nupkg) false ;;
  core_info_stdout pushOutput ;;
  (if Str.includes "error" (Js.show_null pushOutput)
   then match Js.exec_error_line (Js.show_null pushOutput) with
        | Some line => _printErrorAndExit line
        | None => throw TypeError
        end
   else ret tt) ;;
  let symbolsFilename := Js.replace ".nupkg" ".snupkg" nupkg in
  fullpathsymbolsFilename <- ask (path_resolve symbolsFilename) ;;
  stdout_write ("::set-output name=PACKAGE_NAME::" ++ nupkg ++ EOL) ;;
  fullpath <- ask (path_resolve nupkg) ;;
  stdout_write ("::set-output name=PACKAGE_PATH::" ++ fullpath ++ EOL) ;;
  when (nonempty symbolsFilename)
    (there <- ask (existsSync fullpathsymbolsFilename) ;;
     if (there : bool) then
       stdout_write ("::set-output name=SYMBOLS_PACKAGE_NAME::" ++ symbolsFilename ++ EOL) ;;
       stdout_write ("::set-output name=SYMBOLS_PACKAGE_PATH::" ++ fullpathsymbolsFilename ++ EOL)
     else
       core_warning ("supkg [" ++ symbolsFilename ++ "] is not existed. path:["
                     ++ fullpathsymbolsFilename ++ "]")).

Definition unlink (fn : string) : M unit :=
  emit (Unlink fn) ;;
  fun w =>
    match unlinkSync fn w with
    | Some w' => {| trace := []; world := w'; outcome := inr tt |}
    | None => {| trace := []; world := w; outcome := inl SystemError |}
    end.

(** [/\.s?nupkg$/.test(fn)] *)
Definition is_stale_artifact (fn : string) : bool :=
  Str.endsWith ".nupkg" fn || Str.endsWith ".snupkg" fn.

Definition buildCmd (a : Action) : string :=
  "dotnet build -c Release " ++ projectFile a ++ " /p:Version=" ++ Js.show (version a).

Definition packCmd (a : Action) : string :=
  "dotnet pack " ++ _generatePackArgs a ++ " " ++ projectFile a ++ " -o .".

Definition _pushPackage (a : Action) (version : option string) (name : string) : M unit :=
  core_info ("✨ found new version (" ++ Js.show version ++ ") of " ++ name) ;;
  if sourceType_is a NuGet && negb (nonempty (nugetKey a)) then
    core_warning "😢 NUGET_KEY not given"
  else
    core_info ("NuGet Source: " ++ nugetSource a) ;;
    stale <- ask readdirSync ;;
    forEach unlink (filter is_stale_artifact stale) ;;
    when (negb (Json.truthy (noBuild a)))
      (_executeInProcess (buildCmd a)) ;;
    _executeInProcess (packCmd a) ;;
    listing <- ask readdirSync ;;
    let packages := filter (Str.endsWith "nupkg") listing in
    core_info ("Generated Package(s): " ++ Str.join ", " packages) ;;
    forEach (push_one a) (filter (Str.endsWith ".nupkg") packages) ;;
    when (Json.truthy (tagCommit a)) (_tagCommit a version).

Definition derivedPackageName (projectFile : string) : string :=
  Str.join "." (Js.slice_0_m1 (Str.split "." (Js.basename projectFile))).

Definition versionCheckUrl (a : Action) : string :=
  if sourceType_is a GPR
  then Str.toLowerCase (nugetSource a ++ "/download/" ++ packageName a ++ "/index.json")
  else Str.toLowerCase (nugetSource a ++ "/v3-flatcontainer/" ++ packageName a ++ "/index.json").

Definition requestOptions (a : Action) : HttpOptions :=
  if sourceType_is a GPR
  then BasicAuth (githubUser a ++ ":" ++ nugetKey a)
  else UserAgent "Mozilla/5.0 (Windows NT 10.0; Win64; x64) AppleWebKit/537.36 (KHTML, like Gecko) Chrome/100.0.4896.127 Safari/537.36 Edg/100.0.1185.44".

Definition found_message (a : Action) : string :=
  "Found the version: " ++ Js.replace "api." "" (nugetSource a)
  ++ "/packages/" ++ packageName a ++ "/" ++ Js.show (version a).

(** The [end] handler of a 200 response. *)
Definition on_end (a : Action) (body : string) : M unit :=
  match JSON_parse body with
  | None => throw SyntaxError
  | Some existingVersions =>
      match Json.get_versions existingVersions with
      | None => throw TypeError
      | Some versions =>
          match Json.indexOf_negative versions (version a) with
          | None => throw TypeError
          | Some true =>
              match option_map Json.toString versions with
              | Some (Some text) =>
                  core_info ("Current version " ++ Js.show (version a)
                             ++ " is not found in NuGet. Versions:" ++ text) ;;
                  _pushPackage a (version a) (packageName a)
              | _ => throw TypeError
              end
          | Some false => core_info (found_message a)
          end
      end
  end.

(** The callback of [https.get] and the [error] listener. *)
Definition on_outcome (a : Action) (url : string) (o : HttpOutcome) : M unit :=
  match o with
  | Response statusCode statusMessage body =>
      if (statusCode =? 200)%nat then on_end a body
      else if (statusCode =? 404)%nat then
        core_warning ("Url '" ++ url ++ "' is not available now or '" ++ packageName a
                      ++ "' was never uploaded on NuGet") ;;
        _pushPackage a (version a) (packageName a)
      else _printErrorAndExit ("error: " ++ nat_to_string statusCode ++ ": " ++ statusMessage)
  | TransportError message => _printErrorAndExit ("error: " ++ message)
  end.

(** [this] after the default package name is filled in. *)
Definition with_packageName (a : Action) : Action :=
  if nonempty (packageName a) then a
  else set_packageName a (derivedPackageName (projectFile a)).

Definition _checkForUpdate (a0 : Action) : M Action :=
  let a := with_packageName a0 in
  core_info ("Package Name: " ++ packageName a) ;;
  when (sourceType_is a GPR) (core_info "This is GPR, changing url for versioning...") ;;
  core_info ("Url of checking Version: " ++ versionCheckUrl a) ;;
  emit (HttpGet (versionCheckUrl a) (requestOptions a)) ;;
  o <- ask (https_get (versionCheckUrl a) (requestOptions a)) ;;
  on_outcome a (versionCheckUrl a) o ;;
  ret a.

(** The block guarded by [if (!this.version)]. *)
Definition extractVersion (a : Action) : M Action :=
  vthere <- ask (existsSync (versionFile a)) ;;
  (if negb (String.eqb (versionFile a) (projectFile a)) && negb vthere
   then _printErrorAndExit "version file not found"
   else ret tt) ;;
  core_info ("Version Filepath: " ++ versionFile a) ;;
  core_info ("Version Regex: " ++ regex_text (versionRegex a)) ;;
  content <- ask (readFileSync (versionFile a)) ;;
  match content with
  | None => throw SystemError
  | Some versionFileContent =>
      match regex_exec (versionRegex a) versionFileContent with
      | None => _printErrorAndExit "unable to extract version info!"
      | Some parsedVersion => ret (set_version a (nth 1 parsedVersion None))
      end
  end.

Definition run (a : Action) : M Action :=
  _validateInputs a ;;
  there <- ask (existsSync (projectFile a)) ;;
  (if negb (nonempty (projectFile a)) || negb there
   then _printErrorAndExit ("Project file '" ++ projectFile a ++ "' not found")
   else ret tt) ;;
  core_info ("Project Filepath: " ++ projectFile a) ;;
  core_debug ("Version (pre): '" ++ Js.show (version a) ++ "'") ;;
  a' <- (if Js.falsy (version a) then extractVersion a else ret a) ;;
  core_info ("Version: " ++ Js.show (version a')) ;;
  _checkForUpdate a'.

(** [JSON.parse(core.getInput(name))] *)
Definition parse_input (text : string) : M json :=
  match JSON_parse text with
  | Some j => ret j
  | None => throw SyntaxError
  end.

Definition addSourceCmd (t : SourceType) (nugetSource sourceName githubUser nugetKey : string)
  : string :=
  match t with
  | GPR => "dotnet nuget add source " ++ nugetSource ++ "/index.json --name=" ++ sourceName
           ++ " -u=" ++ githubUser ++ " -p=" ++ nugetKey ++ " --store-password-in-clear-text"
  | NuGet => "dotnet nuget add source " ++ nugetSource ++ "/v3/index.json --name=" ++ sourceName
  end.

(** [new Action()]; [getInput] is [core.getInput]. *)
Definition constructor (getInput : string -> string) : M Action :=
  let projectFile := getInput "PROJECT_FILE_PATH" in
  let packageName := getInput "PACKAGE_NAME" in
  let versionFile :=
    if nonempty (getInput "VERSION_FILE_PATH") then getInput "VERSION_FILE_PATH"
    else projectFile in
  versionRegex <- match RegExp_new (getInput "VERSION_REGEX") with
                  | Some r => ret r
                  | None => throw SyntaxError
                  end ;;
  let version := Some (getInput "VERSION_STATIC") in
  tagCommit <- parse_input (getInput "TAG_COMMIT") ;;
  let tagFormat := getInput "TAG_FORMAT" in
  let nugetKey := getInput "NUGET_KEY" in
  let nugetSource := getInput "NUGET_SOURCE" in
  includeSymbols <- parse_input (getInput "INCLUDE_SYMBOLS") ;;
  errorContinue <- parse_input (getInput "ERROR_CONTINUE") ;;
  noBuild <- parse_input (getInput "NO_BUILD") ;;
  let signingCert := getInput "SIGNING_CERT_FILE_NAME" in
  let githubUser := getInput "GITHUB_ACTOR" in
  let sourceName :=
    if Str.startsWith "https://api.nuget.org" nugetSource then "nuget.org" else nugetSource in
  existingSources <- _executeCommand "dotnet nuget list source" false ;;
  match existingSources with
  | None => throw TypeError
  | Some listed =>
      sourceType <-
        (if negb (Str.includes nugetSource listed) then
           let t := if Str.startsWith "https://nuget.pkg.github.com" nugetSource
                    then GPR else NuGet in
           added <- _executeCommand (addSourceCmd t nugetSource sourceName githubUser nugetKey)
                      false ;;
           core_info_stdout added ;;
           ret (Some t)
         else
           core_info (nugetSource ++ " is already in sources.") ;;
           ret None) ;;
      list1 <- _executeCommand "dotnet nuget list source" false ;;
      enable <- _executeCommand ("dotnet nuget enable source " ++ sourceName) false ;;
      core_info_stdout list1 ;;
      core_info_stdout enable ;;
      ret {| projectFile := projectFile; packageName := packageName;
             versionFile := versionFile; versionRegex := versionRegex;
             version := version; tagCommit := tagCommit; tagFormat := tagFormat;
             nugetKey := nugetKey; nugetSource := nugetSource;
             includeSymbols := includeSymbols; errorContinue := errorContinue;
             noBuild := noBuild; signingCert := signingCert; githubUser := githubUser;
             sourceName := sourceName; sourceType := sourceType |}
  end.

(** [new Action().run()] *)
Definition main (getInput : string -> string) : M Action :=
  a <- constructor getInput ;;
  run a.

End ActionMethods.

(** ** A small platform to run the model on

    A directory of named files, a toolchain whose [pack] writes one
    package (and its symbols), a registry that answers by a fixed
    outcome.  Its regular expressions are a literal prefix, one
    greedy dot-star group and a literal suffix; its JSON texts are the ones
    listed in [parse]. *)

Module Sim.

Record world : Type := {
  files : list (string * string);
  listing : string;
  push_stdout : string;
  registry : HttpOutcome
}.

Definition has (p : string) (w : world) : bool :=
  existsb (fun f => String.eqb (fst f) p || String.eqb ("/work/" ++ fst f) p) (files w).

Definition read (p : string) (w : world) : option string :=
  option_map snd (find (fun f => String.eqb (fst f) p) (files w)).

Definition with_files (w : world) (fs : list (string * string)) : world :=
  {| files := fs; listing := listing w; push_stdout := push_stdout w;
     registry := registry w |}.

Definition remove (p : string) (w : world) : option world :=
  if has p w
  then Some (with_files w (filter (fun f => negb (String.eqb (fst f) p)) (files w)))
  else None.

Definition spawn (tool : string) (args : list string) (inherit : bool) (w : world)
  : option string * world :=
  match args with
  | "pack" :: _ =>
      (None, with_files w (files w ++ [("Lib.1.0.0.nupkg", "pkg"); ("Lib.1.0.0.snupkg", "sym")]))
  | "nuget" :: "list" :: _ => (Some (listing w), w)
  | "nuget" :: "push" :: _ => (Some (push_stdout w), w)
  | _ => (if inherit then None else Some "", w)
  end.

Definition quote : string := String "034" "".

Definition body_1_0_0 : string :=
  "{" ++ quote ++ "versions" ++ quote ++ ":[" ++ quote ++ "1.0.0" ++ quote ++ "]}".

Definition parse (text : string) : option json :=
  if String.eqb text "true" then Some (JBool true)
  else if String.eqb text "false" then Some (JBool false)
  else if String.eqb text body_1_0_0 then Some (JObj [("versions", JArr [JStr "1.0.0"])])
  else if String.eqb text "{}" then Some (JObj [])
  else None.

(** One attempt of the pattern at the start of [s]: the prefix, the
    longest group on the same line that the suffix follows, the suffix. *)
Definition attempt (pre post s : string) : option (list (option string)) :=
  if Str.startsWith pre s then
    let line := Js.upto_line_end (Str.drop (String.length pre) s) in
    match Js.find (Str.rev post) (Str.rev line) with
    | None => None
    | Some (_, group_rev) =>
        Some [Some (pre ++ Str.rev group_rev ++ post); Some (Str.rev group_rev)]
    end
  else None.

(** The leftmost position at which an attempt succeeds. *)
Fixpoint exec (pre post content : string) : option (list (option string)) :=
  match attempt pre post content with
  | Some m => Some m
  | None =>
      match content with
      | EmptyString => None
      | String _ rest => exec pre post rest
      end
  end.

Definition compile (text : string) : option RegExp :=
  match Js.find "(.*)" text with
  | Some (pre, post) => Some {| regex_text := "/" ++ text ++ "/m"; regex_exec := exec pre post |}
  | None => None
  end.

#[export] Instance platform : Platform := {|
  World := world;
  existsSync := has;
  readFileSync := read;
  readdirSync := fun w => map fst (files w);
  unlinkSync := remove;
  spawnSync := spawn;
  path_resolve := fun p _ => "/work/" ++ p;
  https_get := fun _ _ w => registry w;
  JSON_parse := parse;
  RegExp_new := compile;
  EOL := String "010" ""
|}.

(** Inputs of a run, as an association list. *)
Definition inputs (l : list (string * string)) (name : string) : string :=
  match find (fun kv => String.eqb (fst kv) name) l with
  | Some kv => snd kv
  | None => ""
  end.

Definition defaults : list (string * string) :=
  [("PROJECT_FILE_PATH", "src/MyLib.csproj");
   ("VERSION_REGEX", "<Version>(.*)</Version>");
   ("TAG_COMMIT", "false"); ("TAG_FORMAT", "v*");
   ("NUGET_KEY", "KEY"); ("NUGET_SOURCE", "https://api.nuget.org");
   ("INCLUDE_SYMBOLS", "false"); ("ERROR_CONTINUE", "false"); ("NO_BUILD", "false");
   ("GITHUB_ACTOR", "octo")].

Definition project : list (string * string) :=
  [("src/MyLib.csproj", "<Project><Version>3.4.5</Version></Project>")].

Definition w404 : world :=
  {| files := project; listing := "Registered Sources:"; push_stdout := "Your package was pushed.";
     registry := Response 404 "Not Found" "" |}.

Definition w200 : world :=
  {| files := project; listing := "Registered Sources:"; push_stdout := "Your package was pushed.";
     registry := Response 200 "OK" body_1_0_0 |}.

(** A registry hosted with the sources, already registered. *)
Definition gpr_inputs : list (string * string) :=
  ("NUGET_SOURCE", "https://nuget.pkg.github.com/octo") :: ("VERSION_STATIC", "1.0.0")
  :: defaults.

Definition w_listed : world :=
  {| files := project;
     listing := "Registered Sources: 1. https://nuget.pkg.github.com/octo [Enabled]";
     push_stdout := "Your package was pushed.";
     registry := Response 404 "Not Found" "" |}.

Definition w_push_error : world :=
  {| files := project; listing := "Registered Sources:";
     push_stdout := "error: Response status code does not indicate success: 403";
     registry := Response 404 "Not Found" "" |}.

(** [this] after the constructor, for the default inputs and an
    explicit version. *)
Definition action (version : string) : Action :=
  {| projectFile := "src/MyLib.csproj"; packageName := "";
     versionFile := "src/MyLib.csproj";
     versionRegex := {| regex_text := "/<Version>(.*)</Version>/m";
                        regex_exec := exec "<Version>" "</Version>" |};
     version := Some version; tagCommit := JBool false; tagFormat := "v*";
     nugetKey := "KEY"; nugetSource := "https://api.nuget.org";
     includeSymbols := JBool false; errorContinue := JBool false;
     noBuild := JBool false; signingCert := ""; githubUser := "octo";
     sourceName := "nuget.org"; sourceType := Some NuGet |}.

Definition set_nugetKey (a : Action) (k : string) : Action :=
  {| projectFile := projectFile a; packageName := packageName a;
     versionFile := versionFile a; versionRegex := versionRegex a;
     version := version a; tagCommit := tagCommit a; tagFormat := tagFormat a;
     nugetKey := k; nugetSource := nugetSource a;
     includeSymbols := includeSymbols a; errorContinue := errorContinue a;
     noBuild := noBuild a; signingCert := signingCert a; githubUser := githubUser a;
     sourceName := sourceName a; sourceType := sourceType a |}.

Definition set_errorContinue (a : Action) (j : json) : Action :=
  {| projectFile := projectFile a; packageName := packageName a;
     versionFile := versionFile a; versionRegex := versionRegex a;
     version := version a; tagCommit := tagCommit a; tagFormat := tagFormat a;
     nugetKey := nugetKey a; nugetSource := nugetSource a;
     includeSymbols := includeSymbols a; errorContinue := j;
     noBuild := noBuild a; signingCert := signingCert a; githubUser := githubUser a;
     sourceName := sourceName a; sourceType := sourceType a |}.

Definition set_projectFile (a : Action) (f : string) : Action :=
  {| projectFile := f; packageName := packageName a;
     versionFile := f; versionRegex := versionRegex a;
     version := version a; tagCommit := tagCommit a; tagFormat := tagFormat a;
     nugetKey := nugetKey a; nugetSource := nugetSource a;
     includeSymbols := includeSymbols a; errorContinue := errorContinue a;
     noBuild := noBuild a; signingCert := signingCert a; githubUser := githubUser a;
     sourceName := sourceName a; sourceType := sourceType a |}.

End Sim.

Example replace_ex : Js.replace "*" "1.2.3" "v*-*" = "v1.2.3-*".
Proof. reflexivity. Qed.

Example basename_ex : Js.basename "src/MyLib.csproj//" = "MyLib.csproj".
Proof. reflexivity. Qed.

Example error_line_ex :
  Js.exec_error_line (String.concat (String "010" "") ["Pushing"; "x error: 409 conflict"; "error 2"])
  = Some "error: 409 conflict".
Proof. reflexivity. Qed.


Example replace_dollar_ex : Js.replace "*" "a$$b$&c" "v*w" = "va$b*cw".
Proof. reflexivity. Qed.

(** ** Facts about the string functions *)

Module StrFacts.

Import Str.

Lemma rev_onto_app (s acc : string) : rev_onto s acc = rev s ++ acc.
Proof.
  unfold rev. revert acc.
  induction s as [|c s IH]; intros acc; simpl; [reflexivity|].
  rewrite IH, (IH (String c "")), append_assoc. reflexivity.
Qed.

Lemma rev_cons (c : ascii) (s : string) : rev (String c s) = rev s ++ String c "".
Proof. unfold rev at 1. simpl. apply rev_onto_app. Qed.

Lemma rev_app (s t : string) : rev (s ++ t) = rev t ++ rev s.
Proof.
  induction s as [|c s IH]; simpl.
  - now rewrite append_nil_r.
  - now rewrite !rev_cons, IH, append_assoc.
Qed.

Lemma rev_involutive (s : string) : rev (rev s) = s.
Proof.
  induction s as [|c s IH]; [reflexivity|].
  now rewrite rev_cons, rev_app, IH.
Qed.

Lemma lacks_app (c : ascii) (s t : string) :
  lacks c (s ++ t) = lacks c s && lacks c t.
Proof.
  induction s as [|a s IH]; simpl; [reflexivity|].
  now rewrite IH, andb_assoc.
Qed.

Lemma lacks_rev (c : ascii) (s : string) : lacks c (rev s) = lacks c s.
Proof.
  induction s as [|a s IH]; [reflexivity|].
  rewrite rev_cons, lacks_app, IH. simpl.
  now rewrite andb_true_r, andb_comm.
Qed.

(** *** [split] and [join] *)

Lemma split_from_cur (c : ascii) (s cur : string) :
  split_from c s cur
  = (rev cur ++ hd "" (split c s)) :: tl (split c s).
Proof.
  unfold split. revert cur.
  induction s as [|a s IH]; intros cur; simpl.
  - now rewrite append_nil_r.
  - destruct (Ascii.eqb a c).
    + simpl. now rewrite append_nil_r.
    + rewrite IH, (IH (String a "")). simpl.
      now rewrite rev_cons, append_assoc.
Qed.

Lemma split_cons (c a : ascii) (s : string) :
  split c (String a s)
  = if Ascii.eqb a c then "" :: split c s
    else String a (hd "" (split c s)) :: tl (split c s).
Proof.
  unfold split at 1. simpl.
  destruct (Ascii.eqb a c); [reflexivity|].
  now rewrite split_from_cur.
Qed.

Lemma split_nonempty (c : ascii) (s : string) : split c s <> [].
Proof.
  destruct s as [|a s]; [discriminate|].
  rewrite split_cons. destruct (Ascii.eqb a c); discriminate.
Qed.

Lemma split_lacks (c : ascii) (s : string) : lacks c s = true -> split c s = [s].
Proof.
  induction s as [|a s IH]; simpl; intros H; [reflexivity|].
  apply andb_true_iff in H as [Ha Hs].
  rewrite split_cons. apply negb_true_iff in Ha. rewrite Ha, (IH Hs). reflexivity.
Qed.

Lemma split_app_sep (c : ascii) (s t : string) :
  split c (s ++ String c t) = (split c s ++ split c t)%list.
Proof.
  induction s as [|a s IH]; simpl.
  - rewrite split_cons, Ascii.eqb_refl. reflexivity.
  - rewrite !split_cons, IH. destruct (Ascii.eqb a c); [reflexivity|].
    pose proof (split_nonempty c s) as Hne.
    destruct (split c s) as [|x r]; [contradiction|]. reflexivity.
Qed.

Lemma join_cons (sep x : string) (xs : list string) :
  xs <> [] -> join sep (x :: xs) = x ++ sep ++ join sep xs.
Proof. destruct xs; [contradiction | reflexivity]. Qed.

Lemma join_split (c : ascii) (s : string) : join (String c "") (split c s) = s.
Proof.
  induction s as [|a s IH]; [reflexivity|].
  rewrite split_cons. pose proof (split_nonempty c s) as Hne.
  destruct (Ascii.eqb a c) eqn:E.
  - apply Ascii.eqb_eq in E. subst a.
    rewrite join_cons by assumption. simpl. now rewrite IH.
  - destruct (split c s) as [|x r]; [contradiction|].
    destruct r as [|y r]; simpl in *; now rewrite <- IH.
Qed.

Lemma split_join (c : ascii) (xs : list string) :
  xs <> [] -> forallb (lacks c) xs = true -> split c (join (String c "") xs) = xs.
Proof.
  induction xs as [|x xs IH]; [contradiction|]. intros _ H.
  simpl in H. apply andb_true_iff in H as [Hx Hxs].
  destruct xs as [|y ys].
  - simpl. now apply split_lacks.
  - rewrite join_cons by discriminate.
    change (String c "" ++ join (String c "") (y :: ys))
      with (String c (join (String c "") (y :: ys))).
    rewrite split_app_sep, (split_lacks _ _ Hx), IH by (assumption || discriminate).
    reflexivity.
Qed.

(** *** [find] and [includes] *)

Lemma startsWith_self_app (p s : string) : startsWith p (p ++ s) = true.
Proof. induction p as [|a p IH]; simpl; [reflexivity|]. now rewrite Ascii.eqb_refl. Qed.

Lemma drop_length_app (p s : string) : drop (String.length p) (p ++ s) = s.
Proof. induction p as [|a p IH]; simpl; [now destruct s | assumption]. Qed.

Lemma find_from_first (c : ascii) (pre post acc : string) :
  lacks c pre = true ->
  Js.find_from (String c "") (pre ++ String c post) acc = Some (rev acc ++ pre, post).
Proof.
  revert acc. induction pre as [|a pre IH]; intros acc H; simpl in *.
  - rewrite Ascii.eqb_refl. simpl. now rewrite append_nil_r.
  - apply andb_true_iff in H as [Ha Hp]. apply negb_true_iff in Ha.
    rewrite Ascii.eqb_sym, Ha. simpl.
    rewrite (IH (String a acc) Hp), rev_cons, append_assoc. reflexivity.
Qed.

Lemma find_from_none (c : ascii) (s acc : string) :
  lacks c s = true -> Js.find_from (String c "") s acc = None.
Proof.
  revert acc. induction s as [|a s IH]; intros acc H; simpl in *; [reflexivity|].
  apply andb_true_iff in H as [Ha Hs]. apply negb_true_iff in Ha.
  rewrite Ascii.eqb_sym, Ha. simpl. now apply IH.
Qed.

Lemma find_from_includes (p s acc : string) :
  includes p s = true -> exists before after, Js.find_from p s acc = Some (before, after).
Proof.
  revert acc. induction s as [|a s IH]; intros acc H.
  - simpl in *. rewrite orb_false_r in H. rewrite H. eauto.
  - cbn [includes] in H. cbn [Js.find_from].
    destruct (startsWith p (String a s)); [eauto|].
    simpl in H. now apply IH.
Qed.

End StrFacts.

(** ** Tag names *)

Module TagFacts.

Import Str StrFacts.

(** A replacement text without [$$], [$&], [$`] or [$']. *)
Fixpoint plain (r : string) : bool :=
  match r with
  | EmptyString => true
  | String c rest =>
      negb (Ascii.eqb c "$"
            && match rest with
               | EmptyString => false
               | String d _ => Js.is_dollar_escape d
               end)
      && plain rest
  end.

Lemma getSubstitution_plain (matched before after r : string) :
  plain r = true -> Js.getSubstitution matched before after r = r.
Proof.
  induction r as [|c rest IH]; [reflexivity|].
  cbn [plain Js.getSubstitution]. intros H.
  apply andb_true_iff in H as [Hc Hrest]. specialize (IH Hrest).
  destruct (Ascii.eqb c "$"); [|now rewrite IH].
  destruct rest as [|d r']; [reflexivity|].
  simpl in Hc. unfold Js.is_dollar_escape in Hc.
  apply negb_true_iff in Hc.
  repeat (apply orb_false_iff in Hc as [Hc ?]).
  rewrite Hc. repeat match goal with H : Ascii.eqb d _ = false |- _ => rewrite H; clear H end.
  now rewrite IH.
Qed.

Lemma replace_first (c : ascii) (r pre post : string) :
  lacks c pre = true -> plain r = true ->
  Js.replace (String c "") r (pre ++ String c post) = pre ++ r ++ post.
Proof.
  intros Hpre Hr. unfold Js.replace, Js.find.
  rewrite (find_from_first _ _ post "" Hpre). simpl.
  now rewrite getSubstitution_plain.
Qed.

Lemma replace_absent (c : ascii) (r s : string) :
  lacks c s = true -> Js.replace (String c "") r s = s.
Proof.
  intros H. unfold Js.replace, Js.find. now rewrite find_from_none.
Qed.

End TagFacts.

Section TagTheorems.

Context {P : Platform}.
Import Str StrFacts TagFacts.

(** C8, as amended: for every template and every version string in
    which no [$] is followed by [$], [&], a backquote or a quote, the tag
    is the template with its first [*] replaced by the version and
    every other character unchanged; a template without [*] is the tag
    itself. *)
Theorem C8_tag_replaces_first_star (a : Action) (v : string) :
  plain v = true ->
  (forall pre post,
      tagFormat a = pre ++ "*" ++ post -> lacks "*" pre = true ->
      TAG a (Some v) = pre ++ v ++ post)
  /\ (lacks "*" (tagFormat a) = true -> TAG a (Some v) = tagFormat a).
Proof.
  intros Hv. split.
  - intros pre post Hfmt Hpre. unfold TAG. rewrite Hfmt. simpl.
    now apply replace_first.
  - intros Habs. unfold TAG. now apply replace_absent.
Qed.

End TagTheorems.

(** ** The default package name *)

Module NameFacts.

Import Str StrFacts.

Lemma basename_scan_segment (seg rest acc : string) (b : bool) :
  lacks "/" seg = true ->
  Js.basename_scan (seg ++ rest) b acc
  = match seg with
    | EmptyString => Js.basename_scan rest b acc
    | String _ _ => Js.basename_scan rest false (rev seg ++ acc)
    end.
Proof.
  revert b acc. induction seg as [|c seg IH]; intros b acc H; [reflexivity|].
  simpl in H. apply andb_true_iff in H as [Hc Hseg]. apply negb_true_iff in Hc.
  simpl. rewrite Hc, (IH _ _ Hseg).
  destruct seg as [|d seg]; [reflexivity|].
  now rewrite (rev_cons c), append_assoc.
Qed.

(** The base name of [dir ++ seg] is [seg], for a directory prefix
    [dir] (empty, or ending in a slash) and a non-empty segment without
    slashes. *)
Lemma basename_last_segment (dir seg : string) :
  (dir = "" \/ exists d, dir = d ++ "/") ->
  lacks "/" seg = true -> seg <> "" ->
  Js.basename (dir ++ seg) = seg.
Proof.
  intros Hdir Hseg Hne. unfold Js.basename.
  rewrite rev_app, basename_scan_segment by now rewrite lacks_rev.
  destruct (rev seg) as [|c r] eqn:E.
  - exfalso. apply Hne. rewrite <- (rev_involutive seg), E. reflexivity.
  - rewrite <- E, rev_involutive, append_nil_r.
    destruct Hdir as [-> | [d ->]]; [reflexivity|].
    rewrite rev_app. reflexivity.
Qed.

End NameFacts.

Section NameTheorems.

Context {P : Platform}.
Import Str StrFacts NameFacts.

(** C9: with no package name configured, the default name is the last
    path segment of the project file without its last extension, and
    only the last one. *)
Theorem C9_default_package_name (a : Action) (dir stem ext : string) :
  packageName a = "" ->
  projectFile a = dir ++ stem ++ "." ++ ext ->
  (dir = "" \/ exists d, dir = d ++ "/") ->
  lacks "/" stem = true -> lacks "/" ext = true -> lacks "." ext = true ->
  packageName (with_packageName a) = stem.
Proof.
  intros Hname Hfile Hdir Hstem Hext Hdot.
  unfold with_packageName, nonempty. rewrite Hname. simpl.
  unfold derivedPackageName. rewrite Hfile, basename_last_segment; trivial.
  - simpl. rewrite split_app_sep, (split_lacks _ _ Hdot).
    unfold Js.slice_0_m1. rewrite removelast_last. apply join_split.
  - rewrite lacks_app. simpl. now rewrite Hstem, Hext.
  - destruct stem; discriminate.
Qed.

Lemma derivedPackageName_no_dot (projectFile : string) :
  lacks "." (Js.basename projectFile) = true -> derivedPackageName projectFile = "".
Proof.
  intros H. unfold derivedPackageName. now rewrite (split_lacks _ _ H).
Qed.

End NameTheorems.

Example C9_example_1 : derivedPackageName "src/MyLib.csproj" = "MyLib".
Proof. reflexivity. Qed.

Example C9_example_2 : derivedPackageName "My.Lib.csproj" = "My.Lib".
Proof. reflexivity. Qed.

(** ** Counting publisher calls and "found" logs in a trace *)

(** The Publisher announces itself with its first statement. *)
Definition is_publisher_entry (e : Event) : bool :=
  match e with
  | LogInfo msg => Str.startsWith "✨ found new version (" msg
  | _ => false
  end.

Definition is_found_log (e : Event) : bool :=
  match e with
  | LogInfo msg => Str.startsWith "Found the version: " msg
  | _ => false
  end.

(** Toolchain or network activity, or a change of the working
    directory. *)
Definition is_activity (e : Event) : bool :=
  match e with
  | Spawn _ _ _ | Unlink _ | HttpGet _ _ | StdoutWrite _ => true
  | _ => false
  end.

Definition publisher_calls (t : list Event) : nat := length (filter is_publisher_entry t).
Definition found_logs (t : list Event) : nat := length (filter is_found_log t).

Lemma publisher_calls_app (t u : list Event) :
  publisher_calls (t ++ u) = publisher_calls t + publisher_calls u.
Proof. unfold publisher_calls. now rewrite filter_app, length_app. Qed.

Lemma found_logs_app (t u : list Event) :
  found_logs (t ++ u) = found_logs t + found_logs u.
Proof. unfold found_logs. now rewrite filter_app, length_app. Qed.

Section EffectFacts.

Context {P : Platform}.
Local Open Scope action_scope.

Lemma bind_emit {B} (e : Event) (k : unit -> M B) (w : World) :
  bind (emit e) k w
  = {| trace := e :: trace (k tt w); world := world (k tt w);
       outcome := outcome (k tt w) |}.
Proof. reflexivity. Qed.

Lemma bind_ask {A B} (f : World -> A) (k : A -> M B) (w : World) :
  bind (ask f) k w = k (f w) w.
Proof. unfold bind, ask. simpl. now destruct (k (f w) w). Qed.

Lemma bind_ret {A B} (x : A) (k : A -> M B) (w : World) :
  bind (ret x) k w = k x w.
Proof. unfold bind, ret. simpl. now destruct (k x w). Qed.

Lemma bind_throws {A B} (m : M A) (k : A -> M B) (w : World) (e : Exn) :
  outcome (m w) = inl e ->
  bind m k w = {| trace := trace (m w); world := world (m w); outcome := inl e |}.
Proof. intros H. unfold bind. now rewrite H. Qed.

Lemma bind_returns {A B} (m : M A) (k : A -> M B) (w : World) (x : A) :
  outcome (m w) = inr x ->
  bind m k w
  = {| trace := trace (m w) ++ trace (k x (world (m w)));
       world := world (k x (world (m w)));
       outcome := outcome (k x (world (m w))) |}.
Proof. intros H. unfold bind. now rewrite H. Qed.

End EffectFacts.

Section Quiet.

Context {P : Platform}.
Local Open Scope action_scope.

(** A computation that neither enters the Publisher nor writes the
    "found" log, in whatever world it runs. *)
Definition quiet {A} (m : M A) : Prop :=
  forall w, publisher_calls (trace (m w)) = 0 /\ found_logs (trace (m w)) = 0.

Lemma quiet_ret {A} (x : A) : quiet (ret x).
Proof. intros w. split; reflexivity. Qed.

Lemma quiet_throw {A} (e : Exn) : quiet (@throw P A e).
Proof. intros w. split; reflexivity. Qed.

Lemma quiet_ask {A} (f : World -> A) : quiet (ask f).
Proof. intros w. split; reflexivity. Qed.

Lemma quiet_emit (e : Event) :
  is_publisher_entry e = false -> is_found_log e = false -> quiet (emit e).
Proof.
  intros H1 H2 w. unfold publisher_calls, found_logs. simpl.
  rewrite H1, H2. split; reflexivity.
Qed.

Lemma quiet_bind {A B} (m : M A) (f : A -> M B) :
  quiet m -> (forall x, quiet (f x)) -> quiet (bind m f).
Proof.
  intros Hm Hf w. unfold bind. destruct (Hm w) as [Hc Hl].
  destruct (outcome (m w)) as [e|x]; simpl; [now split|].
  destruct (Hf x (world (m w))) as [Hc' Hl'].
  rewrite publisher_calls_app, found_logs_app, Hc, Hl, Hc', Hl'. now split.
Qed.

Lemma quiet_when (b : bool) (m : M unit) : quiet m -> quiet (when b m).
Proof. destruct b; simpl; [trivial | intros _; apply quiet_ret]. Qed.

Lemma quiet_forEach {A} (f : A -> M unit) (xs : list A) :
  (forall x, quiet (f x)) -> quiet (forEach f xs).
Proof.
  intros Hf. induction xs as [|x xs IH]; simpl.
  - apply quiet_ret.
  - apply quiet_bind; [apply Hf | intros _; exact IH].
Qed.

Create HintDb quiet.
Hint Resolve quiet_ret quiet_throw quiet_ask quiet_when quiet_forEach : quiet.

Ltac quiet_step :=
  first [ solve [auto with quiet]
        | apply quiet_emit; reflexivity
        | apply quiet_bind; [|intros ?] ].

Lemma quiet_executeCommand (cmd : string) (inherit : bool) :
  quiet (_executeCommand cmd inherit).
Proof.
  unfold _executeCommand, core_info. repeat quiet_step.
  intros w. destruct (spawnSync _ _ _ w). split; reflexivity.
Qed.

Lemma quiet_executeInProcess (cmd : string) : quiet (_executeInProcess cmd).
Proof.
  unfold _executeInProcess. apply quiet_bind; [apply quiet_executeCommand|].
  intros ?; apply quiet_ret.
Qed.

Lemma quiet_printErrorAndExit {A} (msg : string) : quiet (@_printErrorAndExit P A msg).
Proof. unfold _printErrorAndExit, core_error. repeat quiet_step. Qed.

Lemma quiet_unlink (fn : string) : quiet (unlink fn).
Proof.
  unfold unlink. repeat quiet_step.
  intros w. destruct (unlinkSync fn w); split; reflexivity.
Qed.

Hint Resolve quiet_executeCommand quiet_executeInProcess quiet_printErrorAndExit
  quiet_unlink : quiet.

Lemma quiet_tagCommit (a : Action) (v : option string) : quiet (_tagCommit a v).
Proof.
  unfold _tagCommit, core_info, stdout_write. cbv zeta. repeat quiet_step.
Qed.

Lemma quiet_push_one (a : Action) (nupkg : string) : quiet (push_one a nupkg).
Proof.
  unfold push_one, core_info_stdout, stdout_write, core_warning. cbv zeta.
  repeat quiet_step.
  - destruct (Str.includes _ _); [|auto with quiet].
    destruct (Js.exec_error_line _); auto with quiet.
  - apply quiet_when. repeat quiet_step.
    match goal with |- quiet (if ?b then _ else _) => destruct b end;
      repeat quiet_step.
Qed.

Hint Resolve quiet_tagCommit quiet_push_one : quiet.

(** What [_pushPackage] does after its first statement. *)
Definition publish_body (a : Action) (version : option string) : M unit :=
  if sourceType_is a NuGet && negb (nonempty (nugetKey a)) then
    core_warning "😢 NUGET_KEY not given"
  else
    core_info ("NuGet Source: " ++ nugetSource a) ;;
    stale <- ask readdirSync ;;
    forEach unlink (filter is_stale_artifact stale) ;;
    when (negb (Json.truthy (noBuild a))) (_executeInProcess (buildCmd a)) ;;
    _executeInProcess (packCmd a) ;;
    listing <- ask readdirSync ;;
    let packages := filter (Str.endsWith "nupkg") listing in
    core_info ("Generated Package(s): " ++ Str.join ", " packages) ;;
    forEach (push_one a) (filter (Str.endsWith ".nupkg") packages) ;;
    when (Json.truthy (tagCommit a)) (_tagCommit a version).

Lemma pushPackage_unfold (a : Action) (v : option string) (name : string) :
  _pushPackage a v name
  = (core_info ("✨ found new version (" ++ Js.show v ++ ") of " ++ name) ;;
     publish_body a v).
Proof. reflexivity. Qed.

Lemma quiet_publish_body (a : Action) (v : option string) : quiet (publish_body a v).
Proof.
  unfold publish_body, core_warning, core_info. cbv zeta.
  destruct (sourceType_is a NuGet && negb (nonempty (nugetKey a))).
  - repeat quiet_step.
  - repeat quiet_step.
Qed.

(** One run of the Publisher is one publisher entry and no "found"
    log, whatever the toolchain prints. *)
Lemma pushPackage_counts (a : Action) (v : option string) (name : string) (w : World) :
  publisher_calls (trace (_pushPackage a v name w)) = 1
  /\ found_logs (trace (_pushPackage a v name w)) = 0.
Proof.
  rewrite pushPackage_unfold. unfold core_info. rewrite bind_emit. simpl trace.
  destruct (quiet_publish_body a v w) as [Hc Hl].
  match goal with |- context [?e :: ?t] => change (e :: t) with ([e] ++ t)%list end.
  rewrite publisher_calls_app, found_logs_app, Hc, Hl. split; reflexivity.
Qed.

End Quiet.

(** ** The existence check *)

(** The version strings a response body reports: the [versions] array of
    the parsed object, when all its elements are strings. *)
Fixpoint all_strings (xs : list json) : option (list string) :=
  match xs with
  | [] => Some []
  | JStr s :: rest => option_map (cons s) (all_strings rest)
  | _ :: _ => None
  end.

Definition reported_versions {P : Platform} (body : string) : option (list string) :=
  match JSON_parse body with
  | Some (JObj fields) =>
      match Json.lookup "versions" fields with
      | Some (JArr xs) => all_strings xs
      | _ => None
      end
  | _ => None
  end.

Lemma all_strings_map (xs : list json) (vs : list string) :
  all_strings xs = Some vs -> xs = map JStr vs.
Proof.
  revert vs. induction xs as [|x xs IH]; intros vs H; simpl in H.
  - injection H as <-. reflexivity.
  - destruct x; try discriminate.
    destruct (all_strings xs) as [vs'|]; [|discriminate].
    injection H as <-. simpl. now rewrite (IH vs' eq_refl).
Qed.

Lemma indexOf_strings (vs : list string) (v : string) :
  existsb (fun x => Json.strict_eq x (Some v)) (map JStr vs) = true <-> In v vs.
Proof.
  induction vs as [|s vs IH]; simpl; [intuition discriminate|].
  rewrite orb_true_iff, IH, String.eqb_eq. reflexivity.
Qed.

Lemma toString_strings (vs : list string) :
  Json.toString (JArr (map JStr vs)) = Some (Str.join "," vs).
Proof.
  simpl. f_equal.
  match goal with |- option_map _ (?f _) = _ => set (elems := f) end.
  assert (E : elems (map JStr vs) = Some vs).
  { induction vs as [|s vs IH]; [reflexivity|]. simpl. now rewrite IH. }
  now rewrite E.
Qed.

Section ExistenceCheck.

Context {P : Platform}.
Local Open Scope action_scope.

(** What [_checkForUpdate] does up to and including the request. *)
Definition request_prelude (a : Action) : list Event :=
  [LogInfo ("Package Name: " ++ packageName a)]
  ++ (if sourceType_is a GPR then [LogInfo "This is GPR, changing url for versioning..."]
      else [])
  ++ [LogInfo ("Url of checking Version: " ++ versionCheckUrl a);
      HttpGet (versionCheckUrl a) (requestOptions a)].

Definition response_of (a : Action) (w : World) : HttpOutcome :=
  https_get (versionCheckUrl a) (requestOptions a) w.

Lemma bind_ret_r {A B} (m : M A) (x : B) (w : World) :
  trace (bind m (fun _ => ret x) w) = trace (m w)
  /\ world (bind m (fun _ => ret x) w) = world (m w)
  /\ outcome (bind m (fun _ => ret x) w)
     = match outcome (m w) with inl e => inl e | inr _ => inr x end.
Proof.
  unfold bind, ret. destruct (outcome (m w)); simpl; auto using app_nil_r.
Qed.

Lemma checkForUpdate_unfold (a0 : Action) (w : World) :
  let a := with_packageName a0 in
  let r := on_outcome a (versionCheckUrl a) (response_of a w) w in
  trace (_checkForUpdate a0 w) = (request_prelude a ++ trace r)%list
  /\ world (_checkForUpdate a0 w) = world r
  /\ outcome (_checkForUpdate a0 w)
     = match outcome r with inl e => inl e | inr _ => inr a end.
Proof.
  intros a r. unfold _checkForUpdate. fold a.
  unfold core_info, request_prelude, when. rewrite bind_emit.
  destruct (sourceType_is a GPR) eqn:E.
  - rewrite !bind_emit, bind_ask. cbn [trace world outcome].
    destruct (bind_ret_r (on_outcome a (versionCheckUrl a) (response_of a w)) a w)
      as (Ht & Hw & Ho).
    unfold response_of in *. rewrite Ht, Hw, Ho. auto.
  - rewrite bind_ret, !bind_emit, bind_ask. cbn [trace world outcome].
    destruct (bind_ret_r (on_outcome a (versionCheckUrl a) (response_of a w)) a w)
      as (Ht & Hw & Ho).
    unfold response_of in *. rewrite Ht, Hw, Ho. auto.
Qed.

Lemma request_prelude_counts (a : Action) :
  publisher_calls (request_prelude a) = 0 /\ found_logs (request_prelude a) = 0.
Proof.
  unfold request_prelude. destruct (sourceType_is a GPR); split; reflexivity.
Qed.

Lemma info_then_publish_counts (a : Action) (msg : Event) (w : World) :
  is_publisher_entry msg = false -> is_found_log msg = false ->
  let r := bind (emit msg) (fun _ => _pushPackage a (version a) (packageName a)) w in
  publisher_calls (trace r) = 1 /\ found_logs (trace r) = 0.
Proof.
  intros H1 H2 r. subst r. rewrite bind_emit. cbn [trace].
  destruct (pushPackage_counts a (version a) (packageName a) w) as [Hc Hl].
  unfold publisher_calls, found_logs in *. simpl. rewrite H1, H2. auto.
Qed.

Lemma found_message_counts (a : Action) (w : World) :
  trace (core_info (found_message a) w) = [LogInfo (found_message a)]
  /\ publisher_calls (trace (core_info (found_message a) w)) = 0
  /\ found_logs (trace (core_info (found_message a) w)) = 1.
Proof. repeat split. Qed.

(** Whatever the registry answers, at most one of the two happens. *)
Lemma on_outcome_exclusive (a : Action) (url : string) (o : HttpOutcome) (w : World) :
  publisher_calls (trace (on_outcome a url o w))
  + found_logs (trace (on_outcome a url o w)) <= 1.
Proof.
  assert (Hq : forall A msg w', publisher_calls (trace (@_printErrorAndExit P A msg w'))
                            + found_logs (trace (@_printErrorAndExit P A msg w')) <= 1).
  { intros A msg w'. destruct (quiet_printErrorAndExit (A:=A) msg w') as [-> ->]. lia. }
  destruct o as [code msg body | message]; cbn [on_outcome]; [|apply Hq].
  destruct (code =? 200)%nat.
  - unfold on_end.
    destruct (JSON_parse body) as [j|]; [|unfold publisher_calls, found_logs; simpl; lia].
    destruct (Json.get_versions j) as [vs|]; [|unfold publisher_calls, found_logs; simpl; lia].
    destruct (Json.indexOf_negative vs (version a)) as [[|]|]; [| |unfold publisher_calls, found_logs; simpl; lia].
    + destruct (option_map Json.toString vs) as [[text|]|]; try (unfold publisher_calls, found_logs; simpl; lia).
      unfold core_info.
      edestruct (info_then_publish_counts a) as [-> ->]; [| |lia]; reflexivity.
    + destruct (found_message_counts a w) as (_ & -> & ->). lia.
  - destruct (code =? 404)%nat; [|apply Hq].
    unfold core_warning.
    edestruct (info_then_publish_counts a) as [-> ->]; [| |lia]; reflexivity.
Qed.

Lemma on_end_reported (a : Action) (body v : string) (vs : list string) (w : World) :
  version a = Some v -> reported_versions body = Some vs ->
  on_end a body w
  = if existsb (fun x => Json.strict_eq x (Some v)) (map JStr vs)
    then core_info (found_message a) w
    else bind (core_info ("Current version " ++ v ++ " is not found in NuGet. Versions:"
                          ++ Str.join "," vs))
           (fun _ => _pushPackage a (version a) (packageName a)) w.
Proof.
  intros Hv Hrep. unfold reported_versions in Hrep. unfold on_end.
  destruct (JSON_parse body) as [[| | | | |fields]|]; try discriminate.
  unfold Json.get_versions.
  destruct (Json.lookup "versions" fields) as [[| | | |xs|]|]; try discriminate.
  apply all_strings_map in Hrep. subst xs.
  rewrite Hv. unfold Json.indexOf_negative, option_map.
  destruct (existsb _ _); cbn [negb]; [reflexivity|].
  rewrite toString_strings. reflexivity.
Qed.

(** C1: on a 404, and on a 200 whose reported versions lack the
    resolved version, the Publisher is entered exactly once and no
    "found" message is logged; on a 200 that reports the version the
    Publisher is not entered and the "found" message is logged; and in
    no run at all do both happen. *)
Theorem C1_publish_or_found (a0 : Action) (w : World) :
  let a := with_packageName a0 in
  let t := trace (_checkForUpdate a0 w) in
  publisher_calls t + found_logs t <= 1
  /\ forall v code msg body,
       version a0 = Some v ->
       response_of a w = Response code msg body ->
       (code = 404 -> publisher_calls t = 1 /\ found_logs t = 0)
       /\ (code = 200 -> forall vs, reported_versions body = Some vs ->
             (In v vs -> publisher_calls t = 0 /\ found_logs t = 1
                         /\ In (LogInfo (found_message a)) t)
             /\ (~ In v vs -> publisher_calls t = 1 /\ found_logs t = 0)).
Proof.
  intros a t. destruct (checkForUpdate_unfold a0 w) as (Ht & _ & _).
  fold a in Ht. cbv zeta in Ht. fold t in Ht.
  destruct (request_prelude_counts a) as [Hpc Hpl].
  assert (Hcalls : forall u, t = (request_prelude a ++ u)%list ->
                             publisher_calls t = publisher_calls u
                             /\ found_logs t = found_logs u).
  { intros u ->. now rewrite publisher_calls_app, found_logs_app, Hpc, Hpl. }
  destruct (Hcalls _ Ht) as [Ec El]. split.
  - rewrite Ec, El. apply on_outcome_exclusive.
  - intros v code msg body Hv Hres.
    assert (Hva : version a = Some v).
    { subst a. unfold with_packageName. now destruct (nonempty (packageName a0)). }
    rewrite Hres in Ht, Ec, El. split.
    + intros ->. simpl in Ec, El. rewrite Ec, El. unfold core_warning.
      apply info_then_publish_counts; reflexivity.
    + intros -> vs Hrep. simpl on_outcome in Ht, Ec, El.
      rewrite (on_end_reported a body w Hva Hrep) in Ht, Ec, El.
      pose proof (indexOf_strings vs v) as Hin.
      destruct (existsb _ _).
      * split; [intros _ | intros Hn; exfalso; apply Hn; now apply Hin].
        rewrite Ec, El. repeat split.
        rewrite Ht. apply in_or_app. right. now left.
      * split; [intros Hi; apply Hin in Hi; discriminate | intros _].
        rewrite Ec, El. unfold core_info.
        apply info_then_publish_counts; reflexivity.
Qed.

(** C10: when the base name of the project file has no dot, the
    default package name is empty and the request is still made, to a
    URL whose package-name segment is empty. *)
Theorem C10_no_extension_empty_name (a0 : Action) (w : World) :
  packageName a0 = "" ->
  Str.lacks "." (Js.basename (projectFile a0)) = true ->
  let a := with_packageName a0 in
  let url := Str.toLowerCase
               (nugetSource a0
                ++ (if sourceType_is a0 GPR then "/download/" else "/v3-flatcontainer/")
                ++ "" ++ "/index.json") in
  packageName a = ""
  /\ versionCheckUrl a = url
  /\ exists rest,
       trace (_checkForUpdate a0 w)
       = ([LogInfo "Package Name: "]
          ++ (if sourceType_is a0 GPR
              then [LogInfo "This is GPR, changing url for versioning..."] else [])
          ++ [LogInfo ("Url of checking Version: " ++ url);
              HttpGet url (requestOptions a0)]
          ++ rest)%list.
Proof.
  intros Hname Hdot a url.
  assert (Ha : a = set_packageName a0 "").
  { subst a. unfold with_packageName, nonempty. rewrite Hname.
    cbn [String.eqb negb]. now rewrite derivedPackageName_no_dot by exact Hdot. }
  assert (Hurl : versionCheckUrl a = url).
  { rewrite Ha. subst url. unfold versionCheckUrl, sourceType_is. simpl.
    now destruct (sourceType a0) as [[|]|]. }
  split; [now rewrite Ha|]. split; [exact Hurl|].
  destruct (checkForUpdate_unfold a0 w) as (Ht & _ & _). fold a in Ht. cbv zeta in Ht.
  eexists. rewrite Ht. unfold request_prelude. rewrite Hurl.
  replace (packageName a) with "" by now rewrite Ha.
  replace (sourceType_is a GPR) with (sourceType_is a0 GPR) by now rewrite Ha.
  replace (requestOptions a) with (requestOptions a0) by now rewrite Ha.
  rewrite <- !app_assoc. reflexivity.
Qed.

End ExistenceCheck.

(** C1 on the example platform: the registry reports version 1.0.0. *)
Lemma C1_publish_or_found_witness :
  let t := trace (@_checkForUpdate Sim.platform (Sim.action "1.0.0") Sim.w200) in
  publisher_calls t = 0 /\ found_logs t = 1.
Proof.
  destruct (@C1_publish_or_found Sim.platform (Sim.action "1.0.0") Sim.w200) as [_ H].
  destruct (H "1.0.0" 200 "OK" Sim.body_1_0_0 eq_refl eq_refl) as [_ H200].
  destruct (H200 eq_refl ["1.0.0"] eq_refl) as [Hin _].
  destruct (Hin (or_introl eq_refl)) as (Hc & Hl & _).
  split; assumption.
Defined.

(** C10 on the example platform: a project file called [Makefile]. *)
Lemma C10_no_extension_empty_name_witness :
  versionCheckUrl (with_packageName (Sim.set_projectFile (Sim.action "1.0.0") "src/Makefile"))
  = "https://api.nuget.org/v3-flatcontainer//index.json".
Proof.
  exact (proj1 (proj2 (@C10_no_extension_empty_name Sim.platform
                         (Sim.set_projectFile (Sim.action "1.0.0") "src/Makefile")
                         Sim.w404 eq_refl eq_refl))).
Defined.

Section PublisherTheorems.

Context {P : Platform}.
Local Open Scope action_scope.

(** A source that the constructor classified as NuGet, without a key,
    makes the Publisher log a warning and return: nothing is deleted,
    built, packed, pushed or tagged, the world is as it was, and nothing
    is thrown. *)
Lemma classified_source_without_key
    (a : Action) (v : option string) (name : string) (w : World) :
  sourceType a = Some NuGet -> nugetKey a = "" ->
  let r := _pushPackage a v name w in
  trace r = [LogInfo ("✨ found new version (" ++ Js.show v ++ ") of " ++ name);
             LogWarning "😢 NUGET_KEY not given"]
  /\ existsb is_activity (trace r) = false
  /\ world r = w
  /\ outcome r = inr tt.
Proof.
  intros Hty Hkey r. subst r.
  rewrite pushPackage_unfold. unfold core_info. rewrite bind_emit.
  unfold publish_body, sourceType_is. rewrite Hty, Hkey. simpl.
  repeat split.
Qed.

End PublisherTheorems.

(** On the example platform: a source classified NuGet, no key. *)
Example classified_source_without_key_example :
  let r := @_pushPackage Sim.platform (Sim.set_nugetKey (Sim.action "2.0.0") "")
             (Some "2.0.0") "MyLib" Sim.w404 in
  world r = Sim.w404 /\ outcome r = inr tt.
Proof.
  destruct (@classified_source_without_key Sim.platform
              (Sim.set_nugetKey (Sim.action "2.0.0") "") (Some "2.0.0") "MyLib" Sim.w404
              eq_refl eq_refl) as (_ & _ & Hw & Ho).
  split; assumption.
Qed.

(** ** Resolving the version *)

Section RunTheorems.

Context {P : Platform}.
Local Open Scope action_scope.
Local Arguments _checkForUpdate : simpl never.

(** [!this.projectFile || !fs.existsSync(this.projectFile)] *)
Definition project_missing (a : Action) (w : World) : bool :=
  negb (nonempty (projectFile a)) || negb (existsSync (projectFile a) w).

Definition is_warning (e : Event) : bool :=
  match e with LogWarning _ => true | _ => false end.

Lemma validateInputs_run (a : Action) (w : World) :
  exists t, _validateInputs a w = {| trace := t; world := w; outcome := inr tt |}
            /\ existsb is_activity t = false /\ existsb is_warning t = false.
Proof.
  unfold _validateInputs, when.
  destruct (negb (Js.falsy (version a)) && nonempty (versionFile a)); eexists; repeat split.
Qed.

Lemma run_after_validate (a : Action) (w : World) (k : unit -> M Action) :
  exists t, existsb is_activity t = false /\ existsb is_warning t = false
            /\ trace (bind (_validateInputs a) k w) = (t ++ trace (k tt w))%list
            /\ world (bind (_validateInputs a) k w) = world (k tt w)
            /\ outcome (bind (_validateInputs a) k w) = outcome (k tt w).
Proof.
  destruct (validateInputs_run a w) as (t & E & Ha & Hw).
  exists t. unfold bind. rewrite E. simpl. auto.
Qed.

(** The policy switch as [_printError] implements it: a warning and a
    normal return when [errorContinue] is set, an error and an exception
    otherwise.  No statement of [index.js] calls it. *)
Lemma printError_policy (a : Action) (msg : string) (w : World) :
  _printError a msg w
  = if Json.truthy (errorContinue a)
    then {| trace := [LogWarning ("😢 " ++ msg)]; world := w; outcome := inr tt |}
    else {| trace := [LogError ("😭 " ++ msg)]; world := w; outcome := inl (JsError msg) |}.
Proof. unfold _printError. now destruct (Json.truthy (errorContinue a)). Qed.

(** C3, what the code does: a missing project file ends the run with
    an error and an exception, no warning is logged, and the value of
    [errorContinue] plays no part. *)
Theorem C3_missing_project_file_is_fatal (a : Action) (w : World) :
  project_missing a w = true ->
  let msg := "Project file '" ++ projectFile a ++ "' not found" in
  outcome (run a w) = inl (JsError msg)
  /\ In (LogError ("😭 " ++ msg)) (trace (run a w))
  /\ existsb is_warning (trace (run a w)) = false.
Proof.
  intros Hmiss msg. unfold run.
  match goal with |- context [bind (_validateInputs a) ?k] =>
    destruct (run_after_validate a w k) as (t & Hact & Hwarn & Ht & _ & Ho)
  end.
  rewrite Ht, Ho. rewrite bind_ask. unfold project_missing in Hmiss. rewrite Hmiss.
  simpl. repeat split.
  - apply in_or_app. right. now left.
  - rewrite existsb_app, Hwarn. reflexivity.
Qed.

Lemma run_project_missing (a : Action) (w : World) :
  project_missing a w = true ->
  outcome (run a w) = inl (JsError ("Project file '" ++ projectFile a ++ "' not found"))
  /\ existsb is_activity (trace (run a w)) = false.
Proof.
  intros Hmiss. unfold run.
  match goal with |- context [bind (_validateInputs a) ?k] =>
    destruct (run_after_validate a w k) as (t & Hact & _ & Ht & _ & Ho)
  end.
  rewrite Ht, Ho. rewrite bind_ask. unfold project_missing in Hmiss. rewrite Hmiss.
  simpl. split; [reflexivity|]. rewrite existsb_app, Hact. reflexivity.
Qed.

Definition extraction_log (a : Action) : list Event :=
  [LogInfo ("Version Filepath: " ++ versionFile a);
   LogInfo ("Version Regex: " ++ regex_text (versionRegex a))].

Lemma extractVersion_cases (a : Action) (w : World) :
  extractVersion a w
  = if negb (String.eqb (versionFile a) (projectFile a))
       && negb (existsSync (versionFile a) w)
    then {| trace := [LogError "😭 version file not found"]; world := w;
            outcome := inl (JsError "version file not found") |}
    else match readFileSync (versionFile a) w with
         | None => {| trace := extraction_log a; world := w; outcome := inl SystemError |}
         | Some content =>
             match regex_exec (versionRegex a) content with
             | None =>
                 {| trace := (extraction_log a
                              ++ [LogError "😭 unable to extract version info!"])%list;
                    world := w;
                    outcome := inl (JsError "unable to extract version info!") |}
             | Some m =>
                 {| trace := extraction_log a; world := w;
                    outcome := inr (set_version a (nth 1 m None)) |}
             end
         end.
Proof.
  unfold extractVersion. rewrite bind_ask.
  destruct (negb (String.eqb (versionFile a) (projectFile a))
            && negb (existsSync (versionFile a) w)); [reflexivity|].
  rewrite bind_ret. unfold core_info. rewrite !bind_emit, bind_ask.
  destruct (readFileSync (versionFile a) w) as [content|]; [|reflexivity].
  destruct (regex_exec (versionRegex a) content); reflexivity.
Qed.

(** The version with which the existence check is entered. *)
Definition resolution (a : Action) : M Action :=
  if Js.falsy (version a) then extractVersion a else ret a.

Lemma resolution_quiet (a : Action) (w : World) :
  existsb is_activity (trace (resolution a w)) = false
  /\ world (resolution a w) = w.
Proof.
  unfold resolution. destruct (Js.falsy (version a)); [|now split].
  rewrite extractVersion_cases.
  destruct (_ && _); [now split|].
  destruct (readFileSync _ w) as [content|]; [|now split].
  destruct (regex_exec _ content); now split.
Qed.

(** A run whose project file is there: the resolution, then the
    existence check with the resolved version. *)
Lemma run_resolved (a : Action) (w : World) :
  project_missing a w = false ->
  exists pre,
    existsb is_activity pre = false
    /\ match outcome (resolution a w) with
       | inl e => trace (run a w) = pre /\ world (run a w) = w /\ outcome (run a w) = inl e
       | inr a' =>
           trace (run a w) = (pre ++ trace (_checkForUpdate a' w))%list
           /\ world (run a w) = world (_checkForUpdate a' w)
           /\ outcome (run a w) = outcome (_checkForUpdate a' w)
       end.
Proof.
  intros Hproj. unfold run. fold (resolution a).
  match goal with |- context [bind (_validateInputs a) ?k] =>
    destruct (run_after_validate a w k) as (t & Hact & _ & Ht & Hw & Ho)
  end.
  rewrite Ht, Hw, Ho. unfold project_missing in Hproj.
  rewrite bind_ask, Hproj, bind_ret. unfold core_info, core_debug. rewrite !bind_emit.
  cbn [trace world outcome].
  destruct (resolution_quiet a w) as [Hq Hwq].
  destruct (outcome (resolution a w)) as [e|a'] eqn:E.
  - rewrite (bind_throws _ _ _ E). cbn [trace world outcome].
    eexists. split; [|split; [reflexivity|split; [exact Hwq|reflexivity]]].
    rewrite existsb_app. simpl. now rewrite Hact, Hq.
  - rewrite (bind_returns _ _ _ E), Hwq, bind_emit. cbn [trace world outcome].
    exists (t ++ LogInfo ("Project Filepath: " ++ projectFile a)
              :: LogDebug ("Version (pre): '" ++ Js.show (version a) ++ "'")
              :: trace (resolution a w)
              ++ [LogInfo ("Version: " ++ Js.show (version a'))])%list.
    split; [|split; [|split; reflexivity]].
    + rewrite existsb_app. simpl. rewrite existsb_app, Hact, Hq. reflexivity.
    + rewrite <- !app_assoc. simpl. rewrite <- app_assoc. reflexivity.
Qed.

(** [a'] has the fields of [a], the version apart. *)
Definition same_settings (a a' : Action) : Prop :=
  projectFile a' = projectFile a /\ packageName a' = packageName a
  /\ versionFile a' = versionFile a /\ versionRegex a' = versionRegex a
  /\ tagCommit a' = tagCommit a /\ tagFormat a' = tagFormat a
  /\ nugetKey a' = nugetKey a /\ nugetSource a' = nugetSource a
  /\ includeSymbols a' = includeSymbols a /\ errorContinue a' = errorContinue a
  /\ noBuild a' = noBuild a /\ signingCert a' = signingCert a
  /\ githubUser a' = githubUser a /\ sourceName a' = sourceName a
  /\ sourceType a' = sourceType a.

(** C2, what the code does: the existence check is entered with the
    explicit version when there is one, and otherwise, as soon as the
    pattern matches the version file, with element 1 of the match array
    as the version: the first capture group, or [undefined] when the
    match has none.  Nothing checks that element, so a match without a
    first group does not end the run.  When the version file is missing
    or the pattern does not match, the run ends in an exception before
    any toolchain, network or file-system activity, in the no-match case
    with the message of the source. *)
Theorem C2_version_resolution (a : Action) (w : World) :
  let r := run a w in
  (Js.falsy (version a) = false -> project_missing a w = false ->
   exists pre,
     existsb is_activity pre = false
     /\ trace r = (pre ++ trace (_checkForUpdate a w))%list
     /\ outcome r = outcome (_checkForUpdate a w))
  /\ (Js.falsy (version a) = true -> project_missing a w = false ->
      forall content m,
        existsSync (versionFile a) w = true ->
        readFileSync (versionFile a) w = Some content ->
        regex_exec (versionRegex a) content = Some m ->
        exists pre a',
          version a' = nth 1 m None
          /\ same_settings a a'
          /\ existsb is_activity pre = false
          /\ trace r = (pre ++ trace (_checkForUpdate a' w))%list
          /\ outcome r = outcome (_checkForUpdate a' w))
  /\ (Js.falsy (version a) = true ->
      existsSync (versionFile a) w = false
      \/ (forall content, readFileSync (versionFile a) w = Some content ->
                          regex_exec (versionRegex a) content = None) ->
      (exists e, outcome r = inl e)
      /\ existsb is_activity (trace r) = false
      /\ (project_missing a w = false ->
          forall content, existsSync (versionFile a) w = true ->
                          readFileSync (versionFile a) w = Some content ->
                          outcome r = inl (JsError "unable to extract version info!"))).
Proof.
  intros r. subst r. split; [|split].
  - intros Hv Hproj. destruct (run_resolved a w Hproj) as (pre & Hact & H).
    unfold resolution in H. rewrite Hv in H. simpl in H.
    destruct H as (Ht & _ & Ho). eauto.
  - intros Hv Hproj content m Hex Hread Hm.
    destruct (run_resolved a w Hproj) as (pre & Hact & H).
    unfold resolution in H. rewrite Hv, extractVersion_cases, Hex, andb_false_r in H.
    rewrite Hread, Hm in H. cbn [outcome] in H.
    destruct H as (Ht & _ & Ho).
    exists pre, (set_version a (nth 1 m None)).
    split; [reflexivity|]. split; [unfold same_settings; repeat split|].
    split; [exact Hact|]. split; [exact Ht | exact Ho].
  - intros Hv Hneither.
    destruct (project_missing a w) eqn:Hproj.
    + destruct (run_project_missing a w Hproj) as (Ho & Hact). split; [eauto|]. split; [exact Hact|].
      discriminate.
    + destruct (run_resolved a w Hproj) as (pre & Hact & H).
      unfold resolution in H. rewrite Hv, extractVersion_cases in H.
      assert (Hpe : negb (String.eqb (versionFile a) (projectFile a))
                    && negb (existsSync (versionFile a) w) = true
                    \/ (existsSync (versionFile a) w = true
                        /\ forall content, readFileSync (versionFile a) w = Some content ->
                                           regex_exec (versionRegex a) content = None)).
      { destruct (existsSync (versionFile a) w) eqn:Hex.
        - right. split; [reflexivity|]. destruct Hneither as [?|?]; [discriminate|assumption].
        - left. rewrite andb_true_r. apply negb_true_iff, String.eqb_neq. intros Heq.
          unfold project_missing in Hproj. apply orb_false_iff in Hproj as [_ Hp].
          rewrite <- Heq, Hex in Hp. discriminate. }
      destruct Hpe as [Hmiss | [Hex Hnone]].
      * rewrite Hmiss in H. simpl in H. destruct H as (Ht & _ & Ho).
        split; [eauto|]. split; [now rewrite Ht|].
        intros _ content Hex. apply andb_true_iff in Hmiss as [_ Hn].
        rewrite Hex in Hn. discriminate.
      * rewrite Hex, andb_false_r in H.
        destruct (readFileSync (versionFile a) w) as [content|] eqn:Hread.
        -- rewrite (Hnone content eq_refl) in H. simpl in H. destruct H as (Ht & _ & Ho).
           split; [eauto|]. split; [now rewrite Ht|].
           intros _ content' _ _. exact Ho.
        -- simpl in H. destruct H as (Ht & _ & Ho).
           split; [eauto|]. split; [now rewrite Ht|].
           intros _ content' _ Hc. discriminate.
Qed.

End RunTheorems.

(** ** Pushing a package *)

Section PushTheorems.

Context {P : Platform}.
Local Open Scope action_scope.
Import Str StrFacts.

Lemma executeCommand_run (cmd : string) (inherit : bool) (w : World) :
  let TOOL := hd "" (split " " cmd) in
  let ARGS := tl (split " " cmd) in
  _executeCommand cmd inherit w
  = {| trace := [LogInfo ("executing: [" ++ cmd ++ "]"); Spawn TOOL ARGS inherit];
       world := snd (spawnSync TOOL ARGS inherit w);
       outcome := inr (fst (spawnSync TOOL ARGS inherit w)) |}.
Proof.
  intros TOOL ARGS. unfold _executeCommand, core_info. fold TOOL ARGS.
  rewrite !bind_emit. now destruct (spawnSync TOOL ARGS inherit w).
Qed.

Lemma executeInProcess_run (cmd : string) (w : World) :
  outcome (_executeInProcess cmd w) = inr tt
  /\ existsb is_warning (trace (_executeInProcess cmd w)) = false.
Proof.
  unfold _executeInProcess.
  destruct (bind_ret_r (_executeCommand cmd true) tt w) as (Ht & _ & Ho).
  rewrite Ht, Ho, executeCommand_run. now split.
Qed.

Definition signCmd (a : Action) (nupkg : string) : string :=
  "dotnet nuget sign " ++ nupkg ++ " -CertificatePath " ++ signingCert a
  ++ " -Timestamper http://timestamp.digicert.com".

(** The optional signing step of [push_one]. *)
Definition signing (a : Action) (nupkg : string) : M unit :=
  when (nonempty (signingCert a)) (_executeInProcess (signCmd a nupkg)).

Lemma signing_run (a : Action) (nupkg : string) (w : World) :
  outcome (signing a nupkg w) = inr tt
  /\ existsb is_warning (trace (signing a nupkg w)) = false.
Proof.
  unfold signing, when. destruct (nonempty (signingCert a)).
  - apply executeInProcess_run.
  - now split.
Qed.

(** C4, what the code does: when the captured output of the push
    command contains "error", the text from its first occurrence to the
    end of that line is logged as an error and thrown; no warning is
    logged, and the value of [errorContinue] plays no part. *)
Theorem C4_push_error_is_fatal (a : Action) (nupkg out : string) (w : World) :
  let INPUT := split " " (pushCmd a nupkg) in
  let w1 := world (signing a nupkg w) in
  fst (spawnSync (hd "" INPUT) (tl INPUT) false w1) = Some out ->
  includes "error" out = true ->
  exists line,
    Js.exec_error_line out = Some line
    /\ outcome (push_one a nupkg w) = inl (JsError line)
    /\ In (LogError ("😭 " ++ line)) (trace (push_one a nupkg w))
    /\ existsb is_warning (trace (push_one a nupkg w)) = false.
Proof.
  intros INPUT w1 Hout Herr.
  destruct (find_from_includes "error" out "" Herr) as (before & after & Hfind).
  exists ("error" ++ Js.upto_line_end after).
  assert (Hline : Js.exec_error_line out = Some ("error" ++ Js.upto_line_end after)).
  { unfold Js.exec_error_line, Js.find. now rewrite Hfind. }
  split; [exact Hline|].
  destruct (signing_run a nupkg w) as [Hso Hsw].
  unfold push_one. fold (signCmd a nupkg). fold (signing a nupkg).
  rewrite (bind_returns _ _ _ Hso). fold w1.
  pose proof (executeCommand_run (pushCmd a nupkg) false w1) as Hrun.
  cbv zeta in Hrun. fold INPUT in Hrun.
  assert (Hpo : outcome (_executeCommand (pushCmd a nupkg) false w1) = inr (Some out)).
  { rewrite Hrun. cbn [outcome]. now rewrite Hout. }
  rewrite (bind_returns _ _ _ Hpo). unfold core_info_stdout. rewrite bind_emit.
  cbn [Js.show_null]. rewrite Herr, Hline. rewrite Hrun.
  cbn [trace world outcome]. simpl.
  split; [reflexivity|]. split.
  - apply in_or_app. right. simpl. auto 6.
  - rewrite existsb_app, Hsw. reflexivity.
Qed.

Lemma pushCmd_join (a : Action) (nupkg : string) :
  sourceType_is a GPR = false ->
  pushCmd a nupkg
  = join " " (["dotnet"; "nuget"; "push"; nupkg; "-s"; sourceName a; "-k";
               (nugetKey a ++ "--skip-duplicate")%string]
              ++ (if Json.truthy (includeSymbols a) then [] else ["-n"])).
Proof.
  intros Hty. unfold pushCmd. rewrite Hty.
  destruct (Json.truthy (includeSymbols a)); simpl;
    rewrite ?append_assoc; reflexivity.
Qed.

(** C6, what the code does for a source that is not GPR: no separator
    stands between the key and [--skip-duplicate], so the push command
    has the argument [-k] followed by one argument made of the key and
    the option name. *)
Theorem C6_key_glued_to_skip_duplicate (a : Action) (nupkg : string) :
  sourceType_is a GPR = false ->
  lacks " " nupkg = true -> lacks " " (sourceName a) = true ->
  lacks " " (nugetKey a) = true ->
  split " " (pushCmd a nupkg)
  = (["dotnet"; "nuget"; "push"; nupkg; "-s"; sourceName a; "-k";
      (nugetKey a ++ "--skip-duplicate")%string]
     ++ (if Json.truthy (includeSymbols a) then [] else ["-n"]))%list.
Proof.
  intros Hty Hn Hs Hk. rewrite (pushCmd_join a nupkg Hty).
  apply split_join; [discriminate|].
  destruct (Json.truthy (includeSymbols a)); simpl;
    now rewrite Hn, Hs, lacks_app, Hk.
Qed.

(** For a GPR source the key is left out and the option stands alone. *)
Lemma pushCmd_GPR (a : Action) (nupkg : string) :
  sourceType a = Some GPR ->
  lacks " " nupkg = true -> lacks " " (sourceName a) = true ->
  split " " (pushCmd a nupkg)
  = (["dotnet"; "nuget"; "push"; nupkg; "-s"; sourceName a; "--skip-duplicate"]
     ++ (if Json.truthy (includeSymbols a) then [] else ["-n"]))%list.
Proof.
  intros Hty Hn Hs.
  assert (E : pushCmd a nupkg
              = join " " (["dotnet"; "nuget"; "push"; nupkg; "-s"; sourceName a;
                           "--skip-duplicate"]
                          ++ (if Json.truthy (includeSymbols a) then [] else ["-n"]))).
  { unfold pushCmd, sourceType_is. rewrite Hty.
    destruct (Json.truthy (includeSymbols a)); simpl;
      rewrite ?append_assoc; reflexivity. }
  rewrite E. apply split_join; [discriminate|].
  destruct (Json.truthy (includeSymbols a)); simpl; now rewrite Hn, Hs.
Qed.

End PushTheorems.

(** ** Registering the source *)

Section ConstructorTheorems.

Context {P : Platform}.
Local Open Scope action_scope.
Import Str StrFacts.

(** C5, what the code does: when the registry URL is already in the
    toolchain's source listing, the constructor returns with
    [sourceType] left undefined, so that the existence check takes the
    flat-container URL and the User-Agent options whatever the URL is. *)
Theorem C5_listed_source_is_unclassified
    (getInput : string -> string) (w : World)
    (re : RegExp) (tag symbols continue nobuild : json) (listed : string) :
  RegExp_new (getInput "VERSION_REGEX") = Some re ->
  JSON_parse (getInput "TAG_COMMIT") = Some tag ->
  JSON_parse (getInput "INCLUDE_SYMBOLS") = Some symbols ->
  JSON_parse (getInput "ERROR_CONTINUE") = Some continue ->
  JSON_parse (getInput "NO_BUILD") = Some nobuild ->
  fst (spawnSync "dotnet" ["nuget"; "list"; "source"] false w) = Some listed ->
  includes (getInput "NUGET_SOURCE") listed = true ->
  exists a,
    outcome (constructor getInput w) = inr a
    /\ nugetSource a = getInput "NUGET_SOURCE"
    /\ sourceType a = None
    /\ versionCheckUrl a
       = toLowerCase (nugetSource a ++ "/v3-flatcontainer/" ++ packageName a ++ "/index.json")
    /\ exists agent, requestOptions a = UserAgent agent.
Proof.
  intros Hre Htag Hsym Hcont Hnb Hlist Hinc.
  unfold constructor, parse_input. rewrite Hre, Htag, Hsym, Hcont, Hnb.
  rewrite !bind_ret.
  pose proof (executeCommand_run "dotnet nuget list source" false w) as Hrun.
  cbv zeta in Hrun.
  change (hd "" (split " " "dotnet nuget list source")) with "dotnet" in Hrun.
  change (tl (split " " "dotnet nuget list source")) with ["nuget"; "list"; "source"] in Hrun.
  assert (Ho : outcome (_executeCommand "dotnet nuget list source" false w)
               = inr (Some listed)).
  { rewrite Hrun. cbn [outcome]. now rewrite Hlist. }
  rewrite (bind_returns _ _ _ Ho). cbn [outcome]. rewrite Hinc. cbn [negb].
  unfold core_info, core_info_stdout.
  match goal with
  | |- context [bind (bind (emit ?e) (fun _ => ret ?x)) ?k ?w'] =>
      replace (bind (bind (emit e) (fun _ => ret x)) k w')
        with (bind (emit e) (fun _ => k x) w')
        by (rewrite bind_emit; unfold bind; simpl; now destruct (outcome (k x w')))
  end.
  rewrite bind_emit. cbn [outcome].
  repeat match goal with
  | |- context [bind (_executeCommand ?c ?i) ?k ?w'] =>
      rewrite (bind_returns (_executeCommand c i) k w'
                 (x := fst (spawnSync (hd "" (split " " c)) (tl (split " " c)) i w')))
        by (now rewrite executeCommand_run);
      cbn [outcome]
  end.
  rewrite !bind_emit. cbn [outcome ret].
  eexists. split; [reflexivity|]. cbn [nugetSource sourceType packageName].
  split; [reflexivity|]. split; [reflexivity|].
  unfold versionCheckUrl, requestOptions, sourceType_is. cbn [sourceType nugetSource packageName].
  split; [reflexivity|]. eexists. reflexivity.
Qed.

End ConstructorTheorems.

(** ** The theorems on the example platform *)

(** C3: the project file is missing and [errorContinue] is [true]. *)
Lemma C3_missing_project_file_is_fatal_witness :
  outcome (@run Sim.platform
             (Sim.set_errorContinue (Sim.set_projectFile (Sim.action "1.0.0") "gone.csproj")
                (JBool true))
             Sim.w404)
  = inl (JsError "Project file 'gone.csproj' not found").
Proof.
  exact (proj1 (@C3_missing_project_file_is_fatal Sim.platform
                  (Sim.set_errorContinue
                     (Sim.set_projectFile (Sim.action "1.0.0") "gone.csproj") (JBool true))
                  Sim.w404 eq_refl)).
Defined.

(** C4: the push prints an error and [errorContinue] is [true]. *)
Lemma C4_push_error_is_fatal_witness :
  exists line,
    outcome (@push_one Sim.platform (Sim.set_errorContinue (Sim.action "2.0.0") (JBool true))
               "Lib.1.0.0.nupkg" Sim.w_push_error)
    = inl (JsError line).
Proof.
  destruct (@C4_push_error_is_fatal Sim.platform
              (Sim.set_errorContinue (Sim.action "2.0.0") (JBool true))
              "Lib.1.0.0.nupkg"
              "error: Response status code does not indicate success: 403"
              Sim.w_push_error eq_refl eq_refl) as (line & _ & Ho & _).
  exists line. exact Ho.
Defined.

(** C5: a GitHub registry that is already in the listing. *)
Lemma C5_listed_source_is_unclassified_witness :
  exists a,
    outcome (@constructor Sim.platform (Sim.inputs Sim.gpr_inputs) Sim.w_listed) = inr a
    /\ Str.startsWith "https://nuget.pkg.github.com" (nugetSource a) = true
    /\ sourceType a = None.
Proof.
  destruct (@C5_listed_source_is_unclassified Sim.platform (Sim.inputs Sim.gpr_inputs)
              Sim.w_listed
              {| regex_text := "/<Version>(.*)</Version>/m";
                 regex_exec := Sim.exec "<Version>" "</Version>" |}
              (JBool false) (JBool false) (JBool false) (JBool false)
              "Registered Sources: 1. https://nuget.pkg.github.com/octo [Enabled]"
              eq_refl eq_refl eq_refl eq_refl eq_refl eq_refl eq_refl)
    as (a & Ho & Hs & Hty & _).
  exists a. split; [exact Ho|]. split; [|exact Hty]. rewrite Hs. reflexivity.
Defined.

(** C6: a NuGet-style source with key [KEY]. *)
Lemma C6_key_glued_to_skip_duplicate_witness :
  Str.split " " (pushCmd (Sim.action "2.0.0") "Lib.1.0.0.nupkg")
  = ["dotnet"; "nuget"; "push"; "Lib.1.0.0.nupkg"; "-s"; "nuget.org"; "-k";
     "KEY--skip-duplicate"; "-n"].
Proof.
  exact (C6_key_glued_to_skip_duplicate (Sim.action "2.0.0") "Lib.1.0.0.nupkg"
           eq_refl eq_refl eq_refl eq_refl).
Defined.

(** C8 as stated fails for a version holding a dollar pattern: with
    template [v*] and version [$&] the tag is [v*], not [v$&]. *)
Lemma C8_counterexample :
  ~ (forall (a : Action) (v pre post : string),
        tagFormat a = pre ++ "*" ++ post -> Str.lacks "*" pre = true ->
        TAG a (Some v) = pre ++ v ++ post).
Proof.
  intros H. specialize (H (Sim.action "1.0.0") "$&" "v" "" eq_refl eq_refl).
  discriminate H.
Qed.

(** C8: template [v*] and version 1.2.3. *)
Lemma C8_tag_replaces_first_star_witness : TAG (Sim.action "1.2.3") (Some "1.2.3") = "v1.2.3".
Proof.
  exact (proj1 (C8_tag_replaces_first_star (Sim.action "1.2.3") "1.2.3" eq_refl)
           "v" "" eq_refl eq_refl).
Defined.

(** C9: the project file [src/MyLib.csproj]. *)
Lemma C9_default_package_name_witness :
  packageName (with_packageName (Sim.action "1.0.0")) = "MyLib".
Proof.
  exact (@C9_default_package_name (Sim.action "1.0.0") "src/" "MyLib" "csproj"
           eq_refl eq_refl (or_intror (ex_intro _ "src" eq_refl)) eq_refl eq_refl eq_refl).
Defined.

(** ** Whole runs on the example platform *)

Section Scenarios.

Let run_of (inputs : list (string * string)) (w : Sim.world) : Result Action :=
  @main Sim.platform (Sim.inputs inputs) w.

Let outputs (t : list Event) : list string :=
  flat_map (fun e => match e with StdoutWrite s => [s] | _ => [] end) t.

Let spawned (t : list Event) : list (list string) :=
  flat_map (fun e => match e with Spawn _ (sub :: _) true => [[sub]] | _ => [] end) t.

(** Explicit version 2.0.0 and a 404: the Publisher runs, build and pack
    are invoked, the package outputs are written and no tag is made. *)
Example scenario_404_publishes :
  let t := trace (run_of (("VERSION_STATIC", "2.0.0") :: Sim.defaults) Sim.w404) in
  publisher_calls t = 1
  /\ spawned t = [["build"]; ["pack"]]
  /\ outputs t = ["::set-output name=PACKAGE_NAME::Lib.1.0.0.nupkg" ++ String "010" "";
                  "::set-output name=PACKAGE_PATH::/work/Lib.1.0.0.nupkg" ++ String "010" "";
                  "::set-output name=SYMBOLS_PACKAGE_NAME::Lib.1.0.0.snupkg" ++ String "010" "";
                  "::set-output name=SYMBOLS_PACKAGE_PATH::/work/Lib.1.0.0.snupkg"
                  ++ String "010" ""].
Proof. vm_compute. repeat split. Qed.

(** Explicit version 1.0.0 and a registry that reports it: the run ends
    normally with the "found" log and the Publisher is not entered. *)
Example scenario_200_found :
  let r := run_of (("VERSION_STATIC", "1.0.0") :: Sim.defaults) Sim.w200 in
  publisher_calls (trace r) = 0
  /\ last (trace r) (LogInfo "")
     = LogInfo "Found the version: https://nuget.org/packages/MyLib/1.0.0"
  /\ (exists a, outcome r = inr a).
Proof. vm_compute. repeat split. eexists. reflexivity. Qed.

(** No explicit version: it is read from the project file. *)
Example scenario_extracted_version :
  option_map (@version) (match outcome (run_of Sim.defaults Sim.w404) with
                         | inr a => Some a
                         | inl _ => None
                         end)
  = Some (Some "3.4.5").
Proof. vm_compute. reflexivity. Qed.

End Scenarios.

(** ** Events a computation never emits, and exceptions it can throw *)

Section Avoids.

Context {P : Platform}.
Local Open Scope action_scope.

(** No event of the trace satisfies [p], in whatever world. *)
Definition avoids {A} (p : Event -> bool) (m : M A) : Prop :=
  forall w, existsb p (trace (m w)) = false.


(** When the computation ends in an exception, no event of its trace
    satisfies [p]. *)
Definition fails_before {A} (p : Event -> bool) (m : M A) : Prop :=
  forall w e, outcome (m w) = inl e -> existsb p (trace (m w)) = false.

Lemma avoids_ret {A} p (x : A) : avoids p (ret x).
Proof. intros w. reflexivity. Qed.

Lemma avoids_throw {A} p (e : Exn) : avoids p (@throw P A e).
Proof. intros w. reflexivity. Qed.

Lemma avoids_ask {A} p (f : World -> A) : avoids p (ask f).
Proof. intros w. reflexivity. Qed.

Lemma avoids_emit p (e : Event) : p e = false -> avoids p (emit e).
Proof. intros H w. simpl. now rewrite H. Qed.

Lemma avoids_bind {A B} p (m : M A) (f : A -> M B) :
  avoids p m -> (forall x, avoids p (f x)) -> avoids p (bind m f).
Proof.
  intros Hm Hf w. unfold bind. specialize (Hm w).
  destruct (outcome (m w)) as [e|x]; simpl; [exact Hm|].
  now rewrite existsb_app, Hm, (Hf x (world (m w))).
Qed.

Lemma avoids_when p (b : bool) (m : M unit) : avoids p m -> avoids p (when b m).
Proof. destruct b; simpl; [trivial | intros _; apply avoids_ret]. Qed.

Lemma avoids_forEach {A} p (f : A -> M unit) (xs : list A) :
  (forall x, avoids p (f x)) -> avoids p (forEach f xs).
Proof.
  intros Hf. induction xs as [|x xs IH]; simpl.
  - apply avoids_ret.
  - apply avoids_bind; [apply Hf | intros _; exact IH].
Qed.

Lemma avoids_fails_before {A} p (m : M A) : avoids p m -> fails_before p m.
Proof. intros H w e _. apply H. Qed.

Lemma fails_before_bind {A B} p (m : M A) (f : A -> M B) :
  avoids p m -> (forall x, fails_before p (f x)) -> fails_before p (bind m f).
Proof.
  intros Hm Hf w e. unfold bind. specialize (Hm w).
  destruct (outcome (m w)) as [e'|x]; simpl; [intros _; exact Hm|].
  intros He. now rewrite existsb_app, Hm, (Hf x (world (m w)) e He).
Qed.










Lemma avoids_executeCommand p (cmd : string) (inherit : bool) :
  p (LogInfo ("executing: [" ++ cmd ++ "]")) = false ->
  p (Spawn (hd "" (Str.split " " cmd)) (tl (Str.split " " cmd)) inherit) = false ->
  avoids p (_executeCommand cmd inherit).
Proof.
  intros H1 H2 w. rewrite executeCommand_run. cbn [trace existsb]. now rewrite H1, H2.
Qed.

Lemma avoids_executeInProcess p (cmd : string) :
  p (LogInfo ("executing: [" ++ cmd ++ "]")) = false ->
  p (Spawn (hd "" (Str.split " " cmd)) (tl (Str.split " " cmd)) true) = false ->
  avoids p (_executeInProcess cmd).
Proof.
  intros H1 H2. unfold _executeInProcess.
  apply avoids_bind; [now apply avoids_executeCommand | intros _; apply avoids_ret].
Qed.

End Avoids.

(** ** Command lines *)

(** Node's [spawnSync] throws a TypeError, before anything is spawned,
    when the file name is empty or when the file name or an argument
    holds a NUL byte.  [_executeCommand] models the calls that
    [spawnSync] accepts; the statements below about what a command
    returns are made for those. *)
Definition no_nul (s : string) : bool := Str.lacks "000" s.

Definition spawn_accepts (tool : string) (args : list string) : bool :=
  nonempty tool && forallb no_nul (tool :: args).


Section CommandLines.

Context {P : Platform}.
Local Open Scope action_scope.
Import Str StrFacts.

(** X4: A command assembled from a tool and arguments without spaces,
    which [spawnSync] accepts (a non-empty tool, no NUL byte), is spawned
    with exactly that tool and those arguments. *)
Theorem executeCommand_join_roundtrip
    (tool : string) (args : list string) (inherit : bool) (w : World) :
  forallb (lacks " ") (tool :: args) = true ->
  spawn_accepts tool args = true ->
  _executeCommand (join " " (tool :: args)) inherit w
  = {| trace := [LogInfo ("executing: [" ++ join " " (tool :: args) ++ "]");
                 Spawn tool args inherit];
       world := snd (spawnSync tool args inherit w);
       outcome := inr (fst (spawnSync tool args inherit w)) |}.
Proof.
  intros H _. rewrite executeCommand_run. cbv zeta.
  rewrite (split_join " " (xs := tool :: args)) by (assumption || discriminate).
  reflexivity.
Qed.

(** X5: The build command: the project path is cut at each of its spaces. *)
Theorem buildCmd_argv (a : Action) :
  split " " (buildCmd a)
  = (["dotnet"; "build"; "-c"; "Release"]
     ++ split " " (projectFile a)
     ++ split " " ("/p:Version=" ++ Js.show (version a)))%list.
Proof.
  change (buildCmd a)
    with ("dotnet build -c Release"
          ++ String " " (projectFile a
                         ++ String " " ("/p:Version=" ++ Js.show (version a)))).
  now rewrite !split_app_sep.
Qed.

(** X6: The pack command.  With symbols disabled the two spaces around the
    empty symbols option give an empty argument. *)
Theorem packCmd_argv (a : Action) :
  split " " (packCmd a)
  = (["dotnet"; "pack"; "--no-build"; "-c"; "Release"]
     ++ split " " ("-p:PackageVersion=" ++ Js.show (version a))
     ++ (if Json.truthy (includeSymbols a)
         then ["--include-symbols"; "-p:SymbolPackageFormat=snupkg"]
         else [""])
     ++ ["--no-build"; "-c"; "Release"]
     ++ split " " (projectFile a)
     ++ ["-o"; "."])%list.
Proof.
  unfold packCmd, _generatePackArgs.
  destruct (Json.truthy (includeSymbols a)).
  - match goal with |- split " " ?s = _ =>
      replace s with ("dotnet pack --no-build -c Release"
                      ++ String " " (("-p:PackageVersion=" ++ Js.show (version a))
                         ++ String " " ("--include-symbols -p:SymbolPackageFormat=snupkg --no-build -c Release"
                            ++ String " " (projectFile a ++ String " " "-o ."))))
    end.
    + now rewrite !split_app_sep.
    + simpl. rewrite !append_assoc. reflexivity.
  - match goal with |- split " " ?s = _ =>
      replace s with ("dotnet pack --no-build -c Release"
                      ++ String " " (("-p:PackageVersion=" ++ Js.show (version a))
                         ++ String " " (" --no-build -c Release"
                            ++ String " " (projectFile a ++ String " " "-o ."))))
    end.
    + now rewrite !split_app_sep.
    + simpl. rewrite !append_assoc. reflexivity.
Qed.

Lemma executeInProcess_eq (cmd : string) (w : World) :
  let TOOL := hd "" (split " " cmd) in
  let ARGS := tl (split " " cmd) in
  _executeInProcess cmd w
  = {| trace := [LogInfo ("executing: [" ++ cmd ++ "]"); Spawn TOOL ARGS true];
       world := snd (spawnSync TOOL ARGS true w);
       outcome := inr tt |}.
Proof.
  intros TOOL ARGS. unfold _executeInProcess, bind. rewrite executeCommand_run.
  reflexivity.
Qed.

Lemma bind_result {A B} (m : M A) (k : A -> M B) (w w' : World) (t : list Event) (x : A) :
  m w = {| trace := t; world := w'; outcome := inr x |} ->
  bind m k w
  = {| trace := t ++ trace (k x w'); world := world (k x w'); outcome := outcome (k x w') |}.
Proof. intros H. unfold bind. rewrite H. reflexivity. Qed.

Lemma split_git_tag (t : string) : split " " ("git tag " ++ t) = "git" :: "tag" :: split " " t.
Proof.
  change ("git tag " ++ t) with ("git" ++ String " " ("tag" ++ String " " t)).
  now rewrite !split_app_sep.
Qed.

Lemma split_git_push (t : string) :
  split " " ("git push origin " ++ t) = "git" :: "push" :: "origin" :: split " " t.
Proof.
  change ("git push origin " ++ t) with ("git push origin" ++ String " " t).
  now rewrite split_app_sep.
Qed.

(** X7: Tagging, for a tag without a NUL byte (so that [spawnSync]
    accepts both commands): the tag is created and pushed, with the tag
    cut at its spaces, and the VERSION output is written; the result of
    neither git command is inspected, so [_tagCommit] returns. *)
Theorem tagCommit_run (a : Action) (v : option string) (w : World) :
  no_nul (TAG a v) = true ->
  let T := TAG a v in
  let w1 := snd (spawnSync "git" ("tag" :: split " " T) true w) in
  let w2 := snd (spawnSync "git" ("push" :: "origin" :: split " " T) true w1) in
  _tagCommit a v w
  = {| trace := [LogInfo ("✨ creating new tag " ++ T);
                 LogInfo ("executing: [git tag " ++ T ++ "]");
                 Spawn "git" ("tag" :: split " " T) true;
                 LogInfo ("executing: [git push origin " ++ T ++ "]");
                 Spawn "git" ("push" :: "origin" :: split " " T) true;
                 StdoutWrite ("::set-output name=VERSION::" ++ T ++ EOL)];
       world := w2;
       outcome := inr tt |}.
Proof.
  intros _.
  intros T w1 w2. unfold _tagCommit. fold T. cbv zeta.
  unfold core_info, stdout_write. rewrite bind_emit.
  pose proof (executeInProcess_eq ("git tag " ++ T) w) as R1. cbv zeta in R1.
  rewrite split_git_tag in R1. cbn [hd tl] in R1. fold w1 in R1.
  pose proof (executeInProcess_eq ("git push origin " ++ T) w1) as R2. cbv zeta in R2.
  rewrite split_git_push in R2. cbn [hd tl] in R2. fold w2 in R2.
  rewrite (@bind_result _ _ _ _ _ _ _ _ R1). cbn [trace world outcome].
  rewrite (@bind_result _ _ _ _ _ _ _ _ R2). cbn [trace world outcome emit].
  reflexivity.
Qed.

End CommandLines.

(** ** What the Publisher never does *)

Definition is_git (e : Event) : bool :=
  match e with
  | Spawn tool _ _ => String.eqb tool "git"
  | _ => false
  end.

Definition is_build (e : Event) : bool :=
  match e with
  | Spawn tool (sub :: _) _ => String.eqb tool "dotnet" && String.eqb sub "build"
  | _ => false
  end.


Section PublisherNever.

Context {P : Platform}.
Local Open Scope action_scope.
Import Str StrFacts.

Lemma exec_error_line_includes (s : string) :
  includes "error" s = true ->
  exists after, Js.exec_error_line s = Some ("error" ++ Js.upto_line_end after).
Proof.
  intros H. destruct (find_from_includes "error" s "" H) as (before & after & Hfind).
  exists after. unfold Js.exec_error_line, Js.find. now rewrite Hfind.
Qed.

Lemma avoids_unlink p (fn : string) : p (Unlink fn) = false -> avoids p (unlink fn).
Proof.
  intros H w. unfold unlink. rewrite bind_emit. cbn [trace existsb]. rewrite H.
  now destruct (unlinkSync fn w).
Qed.

Lemma avoids_printErrorAndExit {A} p (msg : string) :
  p (LogError ("😭 " ++ msg)) = false -> avoids p (@_printErrorAndExit P A msg).
Proof.
  intros H w. unfold _printErrorAndExit, core_error. rewrite bind_emit.
  cbn [trace existsb throw]. now rewrite H.
Qed.

Ltac avoid_step :=
  first [ apply avoids_ret | apply avoids_throw | apply avoids_ask
        | apply avoids_emit; reflexivity
        | apply avoids_printErrorAndExit; reflexivity
        | apply avoids_unlink; reflexivity
        | apply avoids_executeInProcess; reflexivity
        | apply avoids_executeCommand; reflexivity
        | apply avoids_when
        | apply avoids_forEach; intros ?
        | apply avoids_bind; [|intros ?] ].

Ltac avoid_all :=
  repeat first
    [ avoid_step
    | match goal with
      | |- avoids _ (if ?b then _ else _) => destruct b
      | |- avoids _ (match ?x with Some _ => _ | None => _ end) => destruct x
      end ].

(** Pushing one package spawns neither git nor a build. *)
Lemma avoids_push_one p (a : Action) (nupkg : string) :
  (p = is_git \/ p = is_build) -> avoids p (push_one a nupkg).
Proof.
  intros Hp. unfold push_one, signing, core_info_stdout, stdout_write, core_warning.
  cbv zeta. unfold pushCmd.
  destruct Hp as [-> | ->]; avoid_all.
Qed.

(** The part of [publish_body] before the tag. *)
Definition publish_steps (a : Action) : M unit :=
  core_info ("NuGet Source: " ++ nugetSource a) ;;
  stale <- ask readdirSync ;;
  forEach unlink (filter is_stale_artifact stale) ;;
  when (negb (Json.truthy (noBuild a))) (_executeInProcess (buildCmd a)) ;;
  _executeInProcess (packCmd a) ;;
  listing <- ask readdirSync ;;
  let packages := filter (endsWith "nupkg") listing in
  core_info ("Generated Package(s): " ++ join ", " packages) ;;
  forEach (push_one a) (filter (endsWith ".nupkg") packages).

Lemma bind_assoc {A B C} (m : M A) (f : A -> M B) (g : B -> M C) (w : World) :
  bind (bind m f) g w = bind m (fun x => bind (f x) g) w.
Proof.
  unfold bind. destruct (outcome (m w)) as [e|x]; cbn [trace world outcome]; [reflexivity|].
  destruct (outcome (f x (world (m w)))); cbn [trace world outcome]; [reflexivity|].
  now rewrite app_assoc.
Qed.

Lemma bind_ext {A B} (m : M A) (f g : A -> M B) (w : World) :
  (forall x w', f x w' = g x w') -> bind m f w = bind m g w.
Proof.
  intros H. unfold bind. destruct (outcome (m w)); [reflexivity|]. now rewrite H.
Qed.

(** When the key check passes, the Publisher is its steps followed by
    the optional tag. *)
Lemma publish_body_steps (a : Action) (v : option string) (w : World) :
  sourceType_is a NuGet && negb (nonempty (nugetKey a)) = false ->
  publish_body a v w
  = bind (publish_steps a) (fun _ => when (Json.truthy (tagCommit a)) (_tagCommit a v)) w.
Proof.
  intros Hkey. unfold publish_body, publish_steps. rewrite Hkey. cbv zeta.
  repeat (rewrite bind_assoc; apply bind_ext; intros ? ?).
  reflexivity.
Qed.

Lemma avoids_publish_steps_git (a : Action) : avoids is_git (publish_steps a).
Proof.
  unfold publish_steps, core_info. cbv zeta.
  repeat first [apply avoids_push_one; now left | avoid_step].
Qed.



Lemma tagCommit_git (a : Action) (v : option string) (w : World) :
  outcome (_tagCommit a v w) = inr tt
  /\ existsb is_git (trace (_tagCommit a v w)) = true.
Proof.
  unfold _tagCommit. cbv zeta. unfold core_info, stdout_write. rewrite bind_emit.
  pose proof (executeInProcess_eq ("git tag " ++ TAG a v) w) as R1. cbv zeta in R1.
  rewrite split_git_tag in R1. cbn [hd tl] in R1.
  rewrite (@bind_result _ _ _ _ _ _ _ _ _ R1). cbn [trace world outcome].
  match goal with |- context [bind (_executeInProcess ?c) ?k ?w1] =>
    pose proof (executeInProcess_eq c w1) as R2
  end.
  cbv zeta in R2. rewrite split_git_push in R2. cbn [hd tl] in R2.
  rewrite (@bind_result _ _ _ _ _ _ _ _ _ R2). cbn [trace world outcome emit].
  split; reflexivity.
Qed.



(** X9: A tag is created exactly when tagging is enabled, the key check
    passes and every earlier step of the Publisher has succeeded. *)
Theorem publisher_tags_iff_complete
    (a : Action) (v : option string) (name : string) (w : World) :
  existsb is_git (trace (_pushPackage a v name w)) = true
  <-> (Json.truthy (tagCommit a) = true
       /\ sourceType_is a NuGet && negb (nonempty (nugetKey a)) = false
       /\ outcome (_pushPackage a v name w) = inr tt).
Proof.
  rewrite pushPackage_unfold. unfold core_info. rewrite bind_emit.
  cbn [trace outcome existsb is_git orb].
  destruct (sourceType_is a NuGet && negb (nonempty (nugetKey a))) eqn:Hkey.
  { unfold publish_body. rewrite Hkey. simpl. intuition discriminate. }
  rewrite (publish_body_steps a v w Hkey).
  pose proof (avoids_publish_steps_git a w) as Hsteps.
  unfold bind. destruct (outcome (publish_steps a w)) as [e|[]]; cbn [trace outcome].
  { rewrite Hsteps. intuition discriminate. }
  rewrite existsb_app, Hsteps. cbn [orb].
  destruct (Json.truthy (tagCommit a)); cbn [when].
  - destruct (tagCommit_git a v (world (publish_steps a w))) as [-> ->]. intuition.
  - simpl. intuition discriminate.
Qed.

(** X10: With NO_BUILD set the Publisher never runs the build command. *)
Theorem publisher_noBuild_never_builds
    (a : Action) (v : option string) (name : string) (w : World) :
  Json.truthy (noBuild a) = true ->
  existsb is_build (trace (_pushPackage a v name w)) = false.
Proof.
  intros Hnb. revert w. change (avoids is_build (_pushPackage a v name)).
  unfold _pushPackage, core_info, core_warning. rewrite Hnb. cbn [negb]. cbv zeta.
  apply avoids_bind; [avoid_step|]. intros _.
  destruct (sourceType_is a NuGet && negb (nonempty (nugetKey a))); [avoid_step|].
  unfold packCmd, _tagCommit, core_info, stdout_write. cbv zeta.
  repeat first [apply avoids_push_one; now right | avoid_step].
Qed.

Definition is_key_warning (e : Event) : bool :=
  match e with
  | LogWarning msg => String.eqb msg "😢 NUGET_KEY not given"
  | _ => false
  end.

Lemma avoids_push_one_key_warning (a : Action) (nupkg : string) :
  avoids is_key_warning (push_one a nupkg).
Proof.
  unfold push_one, signing, core_info_stdout, stdout_write, core_warning.
  cbv zeta. unfold pushCmd. avoid_all.
Qed.

Lemma unlink_trace (fn : string) (w : World) : trace (unlink fn w) = [Unlink fn].
Proof.
  unfold unlink. rewrite bind_emit. cbn [trace]. now destruct (unlinkSync fn w).
Qed.

Lemma bind_trace_prefix {A B} (m : M A) (k : A -> M B) (w : World) :
  exists rest, trace (bind m k w) = (trace (m w) ++ rest)%list.
Proof.
  unfold bind. destruct (outcome (m w)); cbn [trace]; [|eauto].
  exists []. now rewrite app_nil_r.
Qed.

(** C7, what the code does when the registry was already in the source
    listing: [sourceType] is undefined, so the missing-key check of the
    Publisher does not fire.  Without a key it logs no key warning,
    deletes the stale artifacts, builds (unless NO_BUILD) and packs, and
    its push command carries [-k] with no key before
    [--skip-duplicate]. *)
Theorem C7_unclassified_source_publishes_without_key
    (a : Action) (v : option string) (name : string) (w : World) :
  sourceType a = None -> nugetKey a = "" ->
  let r := _pushPackage a v name w in
  let entry := LogInfo ("✨ found new version (" ++ Js.show v ++ ") of " ++ name) in
  let source := LogInfo ("NuGet Source: " ++ nugetSource a) in
  existsb is_key_warning (trace r) = false
  /\ (forall fn more,
        filter is_stale_artifact (readdirSync w) = fn :: more ->
        exists rest, trace r = ([entry; source; Unlink fn] ++ rest)%list)
  /\ (filter is_stale_artifact (readdirSync w) = [] ->
      exists rest,
        trace r
        = ([entry; source]
           ++ (if Json.truthy (noBuild a) then []
               else [LogInfo ("executing: [" ++ buildCmd a ++ "]");
                     Spawn (hd "" (split " " (buildCmd a))) (tl (split " " (buildCmd a))) true])
           ++ [LogInfo ("executing: [" ++ packCmd a ++ "]");
               Spawn (hd "" (split " " (packCmd a))) (tl (split " " (packCmd a))) true]
           ++ rest)%list)
  /\ (forall nupkg,
        lacks " " nupkg = true -> lacks " " (sourceName a) = true ->
        split " " (pushCmd a nupkg)
        = (["dotnet"; "nuget"; "push"; nupkg; "-s"; sourceName a; "-k"; "--skip-duplicate"]
           ++ (if Json.truthy (includeSymbols a) then [] else ["-n"]))%list).
Proof.
  intros Hty Hkey r entry source.
  assert (Hgate : sourceType_is a NuGet && negb (nonempty (nugetKey a)) = false).
  { unfold sourceType_is. now rewrite Hty. }
  assert (Hgpr : sourceType_is a GPR = false).
  { unfold sourceType_is. now rewrite Hty. }
  split; [|split; [|split]].
  - subst r. revert w. change (avoids is_key_warning (_pushPackage a v name)).
    unfold _pushPackage, core_info, core_warning. rewrite Hgate. cbv zeta.
    unfold packCmd, buildCmd, _tagCommit, core_info, stdout_write. cbv zeta.
    repeat first [apply avoids_push_one_key_warning | avoid_step].
  - intros fn more Hstale. subst r. rewrite pushPackage_unfold.
    unfold core_info. rewrite bind_emit. cbn [trace].
    unfold publish_body, core_info. rewrite Hgate, bind_emit. cbn [trace].
    rewrite bind_ask, Hstale. cbn [forEach].
    match goal with |- context [trace (bind ?m ?k w)] =>
      destruct (bind_trace_prefix m k w) as (rest1 & ->)
    end.
    match goal with |- context [trace (bind ?m ?k w)] =>
      destruct (bind_trace_prefix m k w) as (rest2 & ->)
    end.
    rewrite unlink_trace. exists (rest2 ++ rest1)%list.
    rewrite <- app_assoc. reflexivity.
  - intros Hstale. subst r. rewrite pushPackage_unfold.
    unfold core_info. rewrite bind_emit. cbn [trace].
    unfold publish_body, core_info. rewrite Hgate, bind_emit. cbn [trace].
    rewrite bind_ask, Hstale. cbn [forEach]. rewrite bind_ret.
    destruct (Json.truthy (noBuild a)); cbn [negb when].
    + rewrite bind_ret.
      pose proof (executeInProcess_eq (packCmd a) w) as R. cbv zeta in R.
      rewrite (@bind_result _ _ _ _ _ _ _ _ _ R). cbn [trace].
      eexists. reflexivity.
    + pose proof (executeInProcess_eq (buildCmd a) w) as R1. cbv zeta in R1.
      rewrite (@bind_result _ _ _ _ _ _ _ _ _ R1). cbn [trace].
      match goal with |- context [bind (_executeInProcess (packCmd a)) ?k ?w1] =>
        pose proof (executeInProcess_eq (packCmd a) w1) as R2
      end.
      cbv zeta in R2. rewrite (@bind_result _ _ _ _ _ _ _ _ _ R2). cbn [trace].
      eexists. reflexivity.
  - intros nupkg Hn Hs. rewrite (pushCmd_join a nupkg Hgpr), Hkey.
    apply split_join; [discriminate|].
    destruct (Json.truthy (includeSymbols a)); simpl; now rewrite Hn, Hs.
Qed.

End PublisherNever.

(** ** More on the existence check *)

Definition is_upper (c : ascii) : bool :=
  let n := nat_of_ascii c in ((65 <=? n) && (n <=? 90))%nat.

Fixpoint no_upper (s : string) : bool :=
  match s with
  | EmptyString => true
  | String c s' => negb (is_upper c) && no_upper s'
  end.

(** [String.prototype.toLowerCase] changes letters outside ASCII as
    well; [Str.toLowerCase] is that function on the strings of ASCII
    characters. *)
Fixpoint ascii_only (s : string) : bool :=
  match s with
  | EmptyString => true
  | String c s' => (nat_of_ascii c <? 128)%nat && ascii_only s'
  end.

Lemma lower_ascii_not_upper (c : ascii) : is_upper (Str.lower_ascii c) = false.
Proof. destruct c as [[] [] [] [] [] [] [] []]; reflexivity. Qed.

Lemma toLowerCase_no_upper (s : string) : no_upper (Str.toLowerCase s) = true.
Proof.
  induction s as [|c s IH]; [reflexivity|].
  cbn [Str.toLowerCase no_upper]. now rewrite lower_ascii_not_upper, IH.
Qed.

Lemma toLowerCase_app (s t : string) :
  Str.toLowerCase (s ++ t) = Str.toLowerCase s ++ Str.toLowerCase t.
Proof. induction s as [|c s IH]; simpl; [reflexivity | now rewrite IH]. Qed.

Section ExistenceCheckMore.

Context {P : Platform}.
Local Open Scope action_scope.

(** X14: For a registry URL and a package name of ASCII characters,
    the lookup URL is the lower-cased registry URL, a fixed path and the
    lower-cased package name; no upper-case ASCII letter is left in it. *)
Theorem versionCheckUrl_lowercase (a : Action) :
  ascii_only (nugetSource a) = true -> ascii_only (packageName a) = true ->
  versionCheckUrl a
  = Str.toLowerCase (nugetSource a)
    ++ (if sourceType_is a GPR then "/download/" else "/v3-flatcontainer/")
    ++ Str.toLowerCase (packageName a) ++ "/index.json"
  /\ no_upper (versionCheckUrl a) = true.
Proof.
  intros _ _. split.
  - unfold versionCheckUrl. destruct (sourceType_is a GPR);
      now rewrite !toLowerCase_app.
  - unfold versionCheckUrl. destruct (sourceType_is a GPR); apply toLowerCase_no_upper.
Qed.

Lemma with_packageName_version (a : Action) : version (with_packageName a) = version a.
Proof. unfold with_packageName. now destruct (nonempty (packageName a)). Qed.

(** X15: A status other than 200 and 404, and a transport error, end the run
    with an error log and an exception carrying the status or the
    message; the Publisher is not entered. *)
Theorem request_failure_is_fatal (a0 : Action) (w : World) :
  let a := with_packageName a0 in
  let r := _checkForUpdate a0 w in
  (forall code msg body,
      response_of a w = Response code msg body -> code <> 200 -> code <> 404 ->
      let text := "error: " ++ nat_to_string code ++ ": " ++ msg in
      outcome r = inl (JsError text)
      /\ trace r = (request_prelude a ++ [LogError ("😭 " ++ text)])%list
      /\ world r = w)
  /\ (forall message,
        response_of a w = TransportError message ->
        outcome r = inl (JsError ("error: " ++ message))
        /\ trace r = (request_prelude a ++ [LogError ("😭 error: " ++ message)])%list
        /\ world r = w).
Proof.
  intros a r. destruct (checkForUpdate_unfold a0 w) as (Ht & Hw & Ho).
  fold a in Ht, Hw, Ho. cbv zeta in Ht, Hw, Ho. fold r in Ht, Hw, Ho. split.
  - intros code msg body Hres H200 H404 text. rewrite Hres in Ht, Hw, Ho.
    cbn [on_outcome] in Ht, Hw, Ho.
    apply Nat.eqb_neq in H200, H404. rewrite H200, H404 in Ht, Hw, Ho.
    rewrite Ht, Hw, Ho. repeat split.
  - intros message Hres. rewrite Hres in Ht, Hw, Ho.
    rewrite Ht, Hw, Ho. repeat split.
Qed.

(** X16: A 200 whose body is not JSON ends the run in a SyntaxError, and one
    whose [versions] is neither an array nor a string in a TypeError; in
    both cases nothing is logged after the request and the Publisher is
    not entered. *)
Theorem unusable_body_throws (a0 : Action) (w : World) (msg body : string) :
  let a := with_packageName a0 in
  let r := _checkForUpdate a0 w in
  response_of a w = Response 200 msg body ->
  (JSON_parse body = None ->
   outcome r = inl SyntaxError /\ trace r = request_prelude a)
  /\ (forall j, JSON_parse body = Some j ->
        match Json.get_versions j with
        | Some (Some (JArr _)) | Some (Some (JStr _)) => False
        | _ => True
        end ->
        outcome r = inl TypeError /\ trace r = request_prelude a).
Proof.
  intros a r Hres. destruct (checkForUpdate_unfold a0 w) as (Ht & _ & Ho).
  fold a in Ht, Ho. cbv zeta in Ht, Ho. fold r in Ht, Ho.
  rewrite Hres in Ht, Ho. cbn [on_outcome Nat.eqb] in Ht, Ho. unfold on_end in Ht, Ho.
  split.
  - intros Hp. rewrite Hp in Ht, Ho. rewrite Ht, Ho. cbn. now rewrite app_nil_r.
  - intros j Hp Hv. rewrite Hp in Ht, Ho.
    destruct (Json.get_versions j) as [[[| | | | |]|]|];
      try contradiction; rewrite Ht, Ho; cbn; now rewrite app_nil_r.
Qed.

Lemma indexOf_undefined (vs : list string) :
  existsb (fun x => Json.strict_eq x None) (map JStr vs) = false.
Proof. induction vs as [|s vs IH]; [reflexivity | exact IH]. Qed.

(** X17: A pattern whose first capture group is undefined gives the version
    [undefined]; the run goes on, and a registry that answers 200 with
    any list of version strings makes it publish. *)
Theorem undefined_version_is_published
    (a : Action) (w : World) (content msg body : string)
    (m : list (option string)) (vs : list string) :
  Js.falsy (version a) = true -> project_missing a w = false ->
  existsSync (versionFile a) w = true ->
  readFileSync (versionFile a) w = Some content ->
  regex_exec (versionRegex a) content = Some m ->
  nth 1 m None = None ->
  let a' := set_version a None in
  response_of (with_packageName a') w = Response 200 msg body ->
  reported_versions body = Some vs ->
  exists pre,
    trace (run a w) = (pre ++ trace (_checkForUpdate a' w))%list
    /\ last pre (LogInfo "") = LogInfo "Version: undefined"
    /\ publisher_calls (trace (_checkForUpdate a' w)) = 1
    /\ In (LogInfo ("Current version undefined is not found in NuGet. Versions:"
                    ++ Str.join "," vs))
          (trace (_checkForUpdate a' w)).
Proof.
  intros Hv Hproj Hex Hread Hm Hg a' Hres Hrep.
  assert (Hrun : exists pre,
             trace (run a w) = (pre ++ trace (_checkForUpdate a' w))%list
             /\ last pre (LogInfo "") = LogInfo "Version: undefined").
  { unfold run.
    match goal with |- context [bind (_validateInputs a) ?k] =>
      destruct (run_after_validate a w k) as (t & _ & _ & Ht & _ & _)
    end.
    rewrite Ht. unfold project_missing in Hproj.
    rewrite bind_ask, Hproj, bind_ret. unfold core_info, core_debug. rewrite !bind_emit.
    cbn [trace]. rewrite Hv.
    assert (E : extractVersion a w
                = {| trace := extraction_log a; world := w; outcome := inr a' |}).
    { rewrite extractVersion_cases, Hex, andb_false_r, Hread, Hm, Hg. reflexivity. }
    rewrite (@bind_result _ _ _ _ _ _ _ _ _ E), bind_emit. cbn [trace].
    exists (t ++ LogInfo ("Project Filepath: " ++ projectFile a)
              :: LogDebug ("Version (pre): '" ++ Js.show (version a) ++ "'")
              :: extraction_log a ++ [LogInfo "Version: undefined"])%list.
    split.
    - rewrite <- app_assoc. reflexivity.
    - match goal with |- last (?t0 ++ ?x :: ?y :: ?el ++ [?z]) _ = _ =>
        replace (t0 ++ x :: y :: el ++ [z])%list with ((t0 ++ x :: y :: el) ++ [z])%list
          by (rewrite <- app_assoc; reflexivity)
      end.
      apply last_last. }
  destruct Hrun as (pre & Hrun & Hlast). exists pre.
  split; [exact Hrun|]. split; [exact Hlast|].
  destruct (checkForUpdate_unfold a' w) as (Ht & _ & _). cbv zeta in Ht.
  rewrite Hres in Ht. cbn [on_outcome Nat.eqb] in Ht.
  assert (Hend : on_end (with_packageName a') body w
                 = bind (core_info ("Current version undefined is not found in NuGet. Versions:"
                                    ++ Str.join "," vs))
                     (fun _ => _pushPackage (with_packageName a') None
                                 (packageName (with_packageName a'))) w).
  { unfold reported_versions in Hrep. unfold on_end.
    destruct (JSON_parse body) as [[| | | | |fields]|]; try discriminate.
    unfold Json.get_versions.
    destruct (Json.lookup "versions" fields) as [[| | | |xs|]|]; try discriminate.
    apply all_strings_map in Hrep. subst xs.
    rewrite with_packageName_version. cbn [version a' set_version].
    unfold Json.indexOf_negative, option_map.
    rewrite indexOf_undefined, toString_strings. reflexivity. }
  rewrite Hend in Ht. unfold core_info in Ht. rewrite bind_emit in Ht. cbn [trace] in Ht.
  destruct (request_prelude_counts (with_packageName a')) as [Hpc _].
  destruct (pushPackage_counts (with_packageName a') None
              (packageName (with_packageName a')) w) as [Hc _].
  rewrite Ht. split.
  - rewrite publisher_calls_app, Hpc.
    match goal with |- context [?e :: ?t] => change (e :: t) with ([e] ++ t)%list end.
    rewrite publisher_calls_app, Hc. reflexivity.
  - apply in_or_app. right. now left.
Qed.

End ExistenceCheckMore.

(** ** More on the constructor *)

(** The command lines a trace spawns, tool first. *)
Definition commands (t : list Event) : list (list string) :=
  flat_map (fun e => match e with Spawn tool args _ => [tool :: args] | _ => [] end) t.

Lemma commands_app (t u : list Event) : commands (t ++ u) = (commands t ++ commands u)%list.
Proof. unfold commands. apply flat_map_app. Qed.

Section ConstructorMore.

Context {P : Platform}.
Local Open Scope action_scope.
Import Str StrFacts.

Definition exec_events (cmd : string) (inherit : bool) : list Event :=
  [LogInfo ("executing: [" ++ cmd ++ "]");
   Spawn (hd "" (split " " cmd)) (tl (split " " cmd)) inherit].

Definition spawn_world (cmd : string) (inherit : bool) (w : World) : World :=
  snd (spawnSync (hd "" (split " " cmd)) (tl (split " " cmd)) inherit w).

Definition spawn_out (cmd : string) (inherit : bool) (w : World) : option string :=
  fst (spawnSync (hd "" (split " " cmd)) (tl (split " " cmd)) inherit w).

Lemma bind_executeCommand {B} (cmd : string) (inherit : bool)
    (k : option string -> M B) (w : World) :
  bind (_executeCommand cmd inherit) k w
  = let r := k (spawn_out cmd inherit w) (spawn_world cmd inherit w) in
    {| trace := exec_events cmd inherit ++ trace r; world := world r; outcome := outcome r |}.
Proof.
  unfold bind. rewrite executeCommand_run. reflexivity.
Qed.

Lemma commands_exec_events (cmd : string) (inherit : bool) :
  commands (exec_events cmd inherit) = [split " " cmd].
Proof.
  unfold commands, exec_events. simpl.
  pose proof (split_nonempty " " cmd). now destruct (split " " cmd).
Qed.

(** X1: A boolean input that is not JSON, or a pattern that does not
    compile, makes the constructor throw a SyntaxError before it has
    logged anything or called the toolchain. *)
Theorem constructor_malformed_input (getInput : string -> string) (w : World) :
  RegExp_new (getInput "VERSION_REGEX") = None
  \/ JSON_parse (getInput "TAG_COMMIT") = None
  \/ JSON_parse (getInput "INCLUDE_SYMBOLS") = None
  \/ JSON_parse (getInput "ERROR_CONTINUE") = None
  \/ JSON_parse (getInput "NO_BUILD") = None ->
  constructor getInput w = {| trace := []; world := w; outcome := inl SyntaxError |}.
Proof.
  intros H. unfold constructor, parse_input.
  destruct (RegExp_new (getInput "VERSION_REGEX")); [|reflexivity].
  rewrite bind_ret.
  destruct (JSON_parse (getInput "TAG_COMMIT")); [|reflexivity].
  rewrite bind_ret.
  destruct (JSON_parse (getInput "INCLUDE_SYMBOLS")); [|reflexivity].
  rewrite bind_ret.
  destruct (JSON_parse (getInput "ERROR_CONTINUE")); [|reflexivity].
  rewrite bind_ret.
  destruct (JSON_parse (getInput "NO_BUILD")); [|reflexivity].
  exfalso. intuition discriminate.
Qed.

(** X2: With well-formed inputs and a toolchain that answers, the
    constructor lists the sources, adds the registry only when its URL is
    not in the listing (with user and key for a GitHub registry), lists
    again and enables the source; the source is named [nuget.org] for the
    public registry and by its URL otherwise. *)
Theorem constructor_commands
    (getInput : string -> string) (w : World)
    (re : RegExp) (tag symbols continue nobuild : json) (listed : string) :
  RegExp_new (getInput "VERSION_REGEX") = Some re ->
  JSON_parse (getInput "TAG_COMMIT") = Some tag ->
  JSON_parse (getInput "INCLUDE_SYMBOLS") = Some symbols ->
  JSON_parse (getInput "ERROR_CONTINUE") = Some continue ->
  JSON_parse (getInput "NO_BUILD") = Some nobuild ->
  fst (spawnSync "dotnet" ["nuget"; "list"; "source"] false w) = Some listed ->
  let ns := getInput "NUGET_SOURCE" in
  let name := if startsWith "https://api.nuget.org" ns then "nuget.org" else ns in
  let t := if startsWith "https://nuget.pkg.github.com" ns then GPR else NuGet in
  let add := addSourceCmd t ns name (getInput "GITHUB_ACTOR") (getInput "NUGET_KEY") in
  let r := constructor getInput w in
  commands (trace r)
  = ([["dotnet"; "nuget"; "list"; "source"]]
     ++ (if includes ns listed then [] else [split " " add])
     ++ [["dotnet"; "nuget"; "list"; "source"];
         split " " ("dotnet nuget enable source " ++ name)])%list
  /\ exists a, outcome r = inr a
               /\ sourceName a = name
               /\ sourceType a = if includes ns listed then None else Some t.
Proof.
  intros Hre Htag Hsym Hcont Hnb Hlist ns name t add r. subst r.
  unfold constructor, parse_input. rewrite Hre, Htag, Hsym, Hcont, Hnb.
  rewrite !bind_ret. fold ns. fold name. fold t. fold add.
  rewrite bind_executeCommand. cbv zeta.
  replace (spawn_out "dotnet nuget list source" false w) with (Some listed)
    by (symmetry; exact Hlist).
  unfold core_info, core_info_stdout.
  destruct (includes ns listed); cbn [negb].
  - rewrite bind_assoc, bind_emit, bind_ret, !bind_executeCommand. cbv zeta.
    rewrite !bind_emit. cbn [trace world outcome ret].
    split.
    + rewrite commands_app, commands_exec_events.
      match goal with |- context [?e :: exec_events ?c ?i ++ ?rest] =>
        change (e :: exec_events c i ++ rest) with ([e] ++ exec_events c i ++ rest)%list
      end.
      rewrite !commands_app, !commands_exec_events. reflexivity.
    + eexists. split; [reflexivity|]. split; reflexivity.
  - rewrite bind_assoc, bind_executeCommand. cbv zeta.
    rewrite bind_assoc, bind_emit, bind_ret, !bind_executeCommand. cbv zeta.
    rewrite !bind_emit. cbn [trace world outcome ret].
    split.
    + rewrite !commands_app, !commands_exec_events.
      match goal with |- context [?e :: exec_events ?c ?i ++ ?rest] =>
        change (e :: exec_events c i ++ rest) with ([e] ++ exec_events c i ++ rest)%list
      end.
      rewrite !commands_app, !commands_exec_events. reflexivity.
    + eexists. split; [reflexivity|]. split; reflexivity.
Qed.

(** X3: When the toolchain cannot be started, so that the listing has no
    output, the constructor ends in a TypeError after that one call. *)
Theorem constructor_without_toolchain
    (getInput : string -> string) (w : World)
    (re : RegExp) (tag symbols continue nobuild : json) :
  RegExp_new (getInput "VERSION_REGEX") = Some re ->
  JSON_parse (getInput "TAG_COMMIT") = Some tag ->
  JSON_parse (getInput "INCLUDE_SYMBOLS") = Some symbols ->
  JSON_parse (getInput "ERROR_CONTINUE") = Some continue ->
  JSON_parse (getInput "NO_BUILD") = Some nobuild ->
  fst (spawnSync "dotnet" ["nuget"; "list"; "source"] false w) = None ->
  outcome (constructor getInput w) = inl TypeError
  /\ commands (trace (constructor getInput w)) = [["dotnet"; "nuget"; "list"; "source"]].
Proof.
  intros Hre Htag Hsym Hcont Hnb Hlist.
  unfold constructor, parse_input. rewrite Hre, Htag, Hsym, Hcont, Hnb.
  rewrite !bind_ret, bind_executeCommand. cbv zeta.
  replace (spawn_out "dotnet nuget list source" false w) with (@None string)
    by (symmetry; exact Hlist).
  cbn [trace outcome throw]. split; [reflexivity|].
  now rewrite app_nil_r, commands_exec_events.
Qed.

End ConstructorMore.

(** ** Package file names *)

Module FileNames.

Import Str StrFacts.

Lemma startsWith_iff (p s : string) :
  startsWith p s = true <-> exists u, s = p ++ u.
Proof.
  revert s. induction p as [|a p IH]; intros s; simpl.
  - split; [intros _; now exists s | reflexivity].
  - destruct s as [|b s].
    + split; [discriminate | intros [u Hu]; discriminate].
    + rewrite andb_true_iff, Ascii.eqb_eq, IH. split.
      * intros [-> [u ->]]. now exists u.
      * intros [u Hu]. injection Hu as -> ->. split; [reflexivity | now exists u].
Qed.

Lemma endsWith_iff (p s : string) :
  endsWith p s = true <-> exists stem, s = stem ++ p.
Proof.
  unfold endsWith. rewrite startsWith_iff. split.
  - intros [u Hu]. exists (rev u).
    rewrite <- (rev_involutive s), Hu, rev_app, rev_involutive. reflexivity.
  - intros [stem ->]. exists (rev stem). apply rev_app.
Qed.

Lemma includes_app (p pre post : string) : includes p (pre ++ p ++ post) = true.
Proof.
  induction pre as [|c pre IH].
  - simpl append. destruct (p ++ post) eqn:E; simpl;
      rewrite <- E, startsWith_self_app; reflexivity.
  - simpl append. cbn [includes]. rewrite IH. apply orb_true_r.
Qed.

Lemma startsWith_app_long (p x y : string) :
  String.length p <= String.length x -> startsWith p (x ++ y) = startsWith p x.
Proof.
  revert x. induction p as [|a p IH]; intros x H; [reflexivity|].
  destruct x as [|b x]; simpl in H; [lia|].
  simpl. rewrite IH by lia. reflexivity.
Qed.

Lemma string_length_app (s t : string) : String.length (s ++ t) = String.length s + String.length t.
Proof. induction s as [|c s IH]; simpl; [reflexivity | now rewrite IH]. Qed.

Lemma find_from_here (q s acc : string) :
  startsWith q s = true ->
  Js.find_from q s acc = Some (rev acc, drop (String.length q) s).
Proof. intros H. destruct s; cbn [Js.find_from]; now rewrite H. Qed.

(** The first occurrence of [p ++ c] in [stem ++ p ++ c] is the last
    one when [p ++ c] does not occur in [stem ++ p]. *)
Lemma find_from_suffix (p : string) (c : ascii) (stem acc : string) :
  includes (p ++ String c "") (stem ++ p) = false ->
  Js.find_from (p ++ String c "") (stem ++ p ++ String c "") acc
  = Some (rev acc ++ stem, "").
Proof.
  revert acc. induction stem as [|a stem IH]; intros acc H.
  - simpl append. rewrite append_nil_r.
    rewrite find_from_here.
    + rewrite <- (append_nil_r (p ++ String c "")) at 2. now rewrite drop_length_app.
    + rewrite <- (append_nil_r (p ++ String c "")) at 2. apply startsWith_self_app.
  - simpl append in *. cbn [includes] in H. apply orb_false_iff in H as [Hs Hi].
    cbn [Js.find_from].
    assert (Hs' : startsWith (p ++ String c "") (String a (stem ++ p ++ String c "")) = false).
    { change (String a (stem ++ p ++ String c ""))
        with (String a (stem ++ (p ++ String c ""))).
      rewrite <- append_assoc.
      change (String a ((stem ++ p) ++ String c ""))
        with (String a (stem ++ p) ++ String c "").
      rewrite startsWith_app_long; [exact Hs|].
      rewrite !string_length_app. simpl. rewrite string_length_app. lia. }
    rewrite Hs', (IH (String a acc) Hi), rev_cons, append_assoc. reflexivity.
Qed.

End FileNames.

Section FileNameTheorems.

Context {P : Platform}.
Import Str StrFacts FileNames.

(** X12: The symbols file of a package [stem.nupkg] is [stem.snupkg] when
    the stem does not itself contain the extension; otherwise it is the
    first occurrence of the extension that is replaced. *)
Theorem symbols_filename (stem : string) :
  includes ".nupkg" (stem ++ ".nupk") = false ->
  Js.replace ".nupkg" ".snupkg" (stem ++ ".nupkg") = stem ++ ".snupkg".
Proof.
  intros H. unfold Js.replace, Js.find.
  pose proof (find_from_suffix ".nupk" "g" stem "" H) as E.
  change (".nupk" ++ String "g" "") with ".nupkg" in E.
  rewrite E. reflexivity.
Qed.


End FileNameTheorems.

(** ** A push that succeeds *)

Section PushSuccess.

Context {P : Platform}.
Local Open Scope action_scope.
Import Str StrFacts FileNames.

Lemma symbols_name_nonempty (nupkg : string) :
  endsWith ".nupkg" nupkg = true ->
  nonempty (Js.replace ".nupkg" ".snupkg" nupkg) = true.
Proof.
  intros H. apply endsWith_iff in H as [stem ->].
  pose proof (includes_app ".nupkg" stem "") as Hinc. rewrite append_nil_r in Hinc.
  destruct (find_from_includes ".nupkg" (stem ++ ".nupkg") "" Hinc) as (b & a & Hf).
  unfold Js.replace, Js.find. rewrite Hf. now destruct b.
Qed.

(** The symbols report of [push_one], in the world after the push. *)
Definition symbols_report (nupkg : string) (w : World) : list Event :=
  let symbolsFilename := Js.replace ".nupkg" ".snupkg" nupkg in
  let full := path_resolve symbolsFilename w in
  if existsSync full w
  then [StdoutWrite ("::set-output name=SYMBOLS_PACKAGE_NAME::" ++ symbolsFilename ++ EOL);
        StdoutWrite ("::set-output name=SYMBOLS_PACKAGE_PATH::" ++ full ++ EOL)]
  else [LogWarning ("supkg [" ++ symbolsFilename ++ "] is not existed. path:[" ++ full ++ "]")].

(** X11: A push whose captured output does not contain "error" (an output
    that is [null] included) returns normally: after the optional
    signing and the push command the package name and path are written,
    then the symbols name and path when the symbols file exists, and a
    warning when it does not. *)
Theorem push_one_success (a : Action) (nupkg : string) (w : World) :
  endsWith ".nupkg" nupkg = true ->
  let w1 := world (signing a nupkg w) in
  let out := spawn_out (pushCmd a nupkg) false w1 in
  let w2 := spawn_world (pushCmd a nupkg) false w1 in
  includes "error" (Js.show_null out) = false ->
  outcome (push_one a nupkg w) = inr tt
  /\ world (push_one a nupkg w) = w2
  /\ trace (push_one a nupkg w)
     = (trace (signing a nupkg w)
        ++ exec_events (pushCmd a nupkg) false
        ++ [LogEcho out;
            StdoutWrite ("::set-output name=PACKAGE_NAME::" ++ nupkg ++ EOL);
            StdoutWrite ("::set-output name=PACKAGE_PATH::" ++ path_resolve nupkg w2 ++ EOL)]
        ++ symbols_report nupkg w2)%list.
Proof.
  intros Hend w1 out w2 Hok.
  destruct (signing_run a nupkg w) as [Hso _].
  unfold push_one. fold (signCmd a nupkg). fold (signing a nupkg).
  rewrite (bind_returns _ _ _ Hso). fold w1. cbn [trace world outcome].
  rewrite bind_executeCommand. cbv zeta. fold out. fold w2. cbn [trace world outcome].
  unfold core_info_stdout, stdout_write, core_warning.
  rewrite bind_emit. cbn [trace world outcome]. rewrite Hok, bind_ret, bind_ask, bind_emit.
  cbn [trace world outcome]. rewrite bind_ask, bind_emit. cbn [trace world outcome].
  rewrite (symbols_name_nonempty _ Hend). cbn [when]. rewrite bind_ask.
  unfold symbols_report. cbv zeta.
  destruct (existsSync (path_resolve (Js.replace ".nupkg" ".snupkg" nupkg) w2) w2).
  - rewrite bind_emit. cbn [trace world outcome emit]. repeat split.
  - cbn [trace world outcome emit]. repeat split.
Qed.

End PushSuccess.

(** * The earlier version of the action ([src/unnamed/part_000])

    The same class before registry registration, build skipping and
    signing were added.  Failures go through [_printError]; the registry
    is always taken to be NuGet-style.  The methods that are the same
    text as in [index.js] ([_validateInputs], [_printError],
    [_executeCommand], [_executeInProcess], [_tagCommit]) are the
    definitions above. *)

Module Legacy.

Section Methods.

Context {P : Platform}.
Local Open Scope action_scope.

(** The constructor reads the inputs and calls nothing.  The fields
    that only [index.js] has are never read here. *)
Definition constructor (getInput : string -> string) : M Action :=
  let projectFile := getInput "PROJECT_FILE_PATH" in
  let packageName := getInput "PACKAGE_NAME" in
  let versionFile :=
    if nonempty (getInput "VERSION_FILE_PATH") then getInput "VERSION_FILE_PATH"
    else projectFile in
  versionRegex <- match RegExp_new (getInput "VERSION_REGEX") with
                  | Some r => ret r
                  | None => throw SyntaxError
                  end ;;
  let version := Some (getInput "VERSION_STATIC") in
  tagCommit <- parse_input (getInput "TAG_COMMIT") ;;
  let tagFormat := getInput "TAG_FORMAT" in
  let nugetKey := getInput "NUGET_KEY" in
  let nugetSource := getInput "NUGET_SOURCE" in
  includeSymbols <- parse_input (getInput "INCLUDE_SYMBOLS") ;;
  errorContinue <- parse_input (getInput "ERROR_CONTINUE") ;;
  ret {| projectFile := projectFile; packageName := packageName;
         versionFile := versionFile; versionRegex := versionRegex;
         version := version; tagCommit := tagCommit; tagFormat := tagFormat;
         nugetKey := nugetKey; nugetSource := nugetSource;
         includeSymbols := includeSymbols; errorContinue := errorContinue;
         noBuild := JNull; signingCert := ""; githubUser := "";
         sourceName := ""; sourceType := None |}.

Definition _generatePackArgs (a : Action) : string :=
  let args := "--no-build -c Release -p:PackageVersion=" ++ Js.show (version a) in
  if Json.truthy (includeSymbols a)
  then args ++ " --INCLUDE_SYMBOLS -p:SymbolPackageFormat=snupkg"
  else args.

Definition packCmd (a : Action) : string :=
  "dotnet pack " ++ _generatePackArgs a ++ " " ++ projectFile a ++ " -o .".

Definition pushCmd (a : Action) (nupkg : string) : string :=
  "dotnet nuget push " ++ nupkg ++ " -s " ++ nugetSource a ++ "/v3/index.json -k "
  ++ nugetKey a ++ " --skip-duplicate "
  ++ (if negb (Json.truthy (includeSymbols a)) then "--no-symbols" else "").

(** The body of the [forEach] over the packages. *)
Definition push_each (a : Action) (nupkg : string) : M unit :=
  pushOutput <- _executeCommand (pushCmd a nupkg) false ;;
  core_info_stdout pushOutput ;;
  if Str.includes "error" (Js.show_null pushOutput)
  then match Js.exec_error_line (Js.show_null pushOutput) with
       | Some line => _printError a line
       | None => throw TypeError
       end
  else ret tt.

Definition _pushPackage (a : Action) (version : option string) (name : string) : M unit :=
  core_info ("✨ found new version (" ++ Js.show version ++ ") of " ++ name) ;;
  if negb (nonempty (nugetKey a)) then
    core_warning "😢 NUGET_KEY not given"
  else
    core_info ("NuGet Source: " ++ nugetSource a) ;;
    stale <- ask readdirSync ;;
    forEach unlink (filter is_stale_artifact stale) ;;
    _executeInProcess (buildCmd a) ;;
    _executeInProcess (packCmd a) ;;
    listing <- ask readdirSync ;;
    let packages := filter (Str.endsWith "nupkg") listing in
    core_info ("Generated Package(s): " ++ Str.join ", " packages) ;;
    forEach (push_each a) packages ;;
    let packageFilename := hd_error (filter (Str.endsWith ".nupkg") packages) in
    let symbolsFilename := hd_error (filter (Str.endsWith ".snupkg") packages) in
    stdout_write ("::set-output name=PACKAGE_NAME::" ++ Js.show packageFilename ++ EOL) ;;
    fullpath <- match packageFilename with
                | Some f => ask (path_resolve f)
                | None => throw TypeError
                end ;;
    stdout_write ("::set-output name=package-path::" ++ fullpath ++ EOL) ;;
    match symbolsFilename with
    | Some s =>
        when (nonempty s)
          (stdout_write ("::set-output name=symbols-PACKAGE_NAME::" ++ s ++ EOL) ;;
           sympath <- ask (path_resolve s) ;;
           stdout_write ("::set-output name=symbols-package-path::" ++ sympath ++ EOL))
    | None => ret tt
    end ;;
    when (Json.truthy (tagCommit a)) (_tagCommit a version).

Definition versionCheckUrl (a : Action) : string :=
  nugetSource a ++ "/v3-flatcontainer/" ++ packageName a ++ "/index.json".

Definition requestOptions : HttpOptions :=
  UserAgent "Mozilla/5.0 (Windows NT 10.0; Win64; x64) AppleWebKit/537.36 (KHTML, like Gecko) Chrome/100.0.4896.127 Safari/537.36 Edg/100.0.1185.44".

(** The [end] handler of a 200 response. *)
Definition on_end (a : Action) (body : string) : M unit :=
  match JSON_parse body with
  | None => throw SyntaxError
  | Some existingVersions =>
      match Json.get_versions existingVersions with
      | None => throw TypeError
      | Some versions =>
          match Json.indexOf_negative versions (version a) with
          | None => throw TypeError
          | Some true =>
              match option_map Json.toString versions with
              | Some (Some text) =>
                  core_info ("Current version " ++ Js.show (version a)
                             ++ " is not found in NuGet. Versions:" ++ text) ;;
                  _pushPackage a (version a) (packageName a)
              | _ => throw TypeError
              end
          | Some false => core_info (found_message a)
          end
      end
  end.

(** The callback of [https.get] (two [if]s, no [else]) and the [error]
    listener. *)
Definition on_outcome (a : Action) (url : string) (o : HttpOutcome) : M unit :=
  match o with
  | Response statusCode statusMessage body =>
      when (statusCode =? 404)%nat
        (core_info ("##[warning]😢 Url '" ++ url ++ "' is not available now or '"
                    ++ packageName a ++ "' was never uploaded on NuGet") ;;
         _pushPackage a (version a) (packageName a)) ;;
      when (statusCode =? 200)%nat (on_end a body)
  | TransportError message => _printError a ("error: " ++ message)
  end.

Definition _checkForUpdate (a0 : Action) : M Action :=
  let a := with_packageName a0 in
  core_info ("Package Name: " ++ packageName a) ;;
  core_info ("Url of checking Version: " ++ versionCheckUrl a) ;;
  emit (HttpGet (versionCheckUrl a) requestOptions) ;;
  o <- ask (https_get (versionCheckUrl a) requestOptions) ;;
  on_outcome a (versionCheckUrl a) o ;;
  ret a.

(** The block guarded by [if (!this.version)]. *)
Definition extractVersion (a : Action) : M Action :=
  vthere <- ask (existsSync (versionFile a)) ;;
  when (negb (String.eqb (versionFile a) (projectFile a)) && negb vthere)
    (_printError a "version file not found") ;;
  core_info ("Version Filepath: " ++ versionFile a) ;;
  core_info ("Version Regex: " ++ regex_text (versionRegex a)) ;;
  content <- ask (readFileSync (versionFile a)) ;;
  match content with
  | None => throw SystemError
  | Some versionFileContent =>
      let parsedVersion := regex_exec (versionRegex a) versionFileContent in
      match parsedVersion with
      | None =>
          _printError a "unable to extract version info!" ;;
          throw TypeError
      | Some m => ret (set_version a (nth 1 m None))
      end
  end.

Definition run (a : Action) : M Action :=
  _validateInputs a ;;
  there <- ask (existsSync (projectFile a)) ;;
  when (negb (nonempty (projectFile a)) || negb there)
    (_printError a ("Project file '" ++ projectFile a ++ "' not found")) ;;
  core_info ("Project Filepath: " ++ projectFile a) ;;
  core_debug ("Version (pre): '" ++ Js.show (version a) ++ "'") ;;
  a' <- (if Js.falsy (version a) then extractVersion a else ret a) ;;
  core_info ("Version: " ++ Js.show (version a')) ;;
  _checkForUpdate a'.

Definition main (getInput : string -> string) : M Action :=
  a <- constructor getInput ;;
  run a.

End Methods.

End Legacy.

(** ** Properties of the earlier version *)

Section LegacyTheorems.

Context {P : Platform}.
Local Open Scope action_scope.
Import Str StrFacts.

Lemma legacy_run_after_validate (a : Action) (w : World) (k : unit -> M Action) :
  exists t, existsb is_activity t = false /\ existsb is_warning t = false
            /\ bind (_validateInputs a) k w
               = {| trace := t ++ trace (k tt w); world := world (k tt w);
                    outcome := outcome (k tt w) |}.
Proof.
  destruct (validateInputs_run a w) as (t & E & Ha & Hw).
  exists t. split; [exact Ha|]. split; [exact Hw|].
  now rewrite (@bind_result _ _ _ _ _ _ _ _ _ E).
Qed.

(** X18: In the earlier version the project-file check goes through the
    policy switch: with [errorContinue] set, a missing project file is a
    warning and the run goes on to the existence check with the explicit
    version; without it the run ends in an exception before any
    activity. *)
Theorem legacy_missing_project_file (a : Action) (w : World) :
  project_missing a w = true ->
  let msg := "Project file '" ++ projectFile a ++ "' not found" in
  (Json.truthy (errorContinue a) = true -> Js.falsy (version a) = false ->
   exists pre,
     existsb is_activity pre = false
     /\ In (LogWarning ("😢 " ++ msg)) pre
     /\ trace (Legacy.run a w) = (pre ++ trace (Legacy._checkForUpdate a w))%list
     /\ outcome (Legacy.run a w) = outcome (Legacy._checkForUpdate a w))
  /\ (Json.truthy (errorContinue a) = false ->
      outcome (Legacy.run a w) = inl (JsError msg)
      /\ existsb is_activity (trace (Legacy.run a w)) = false).
Proof.
  intros Hmiss msg. unfold project_missing in Hmiss. unfold Legacy.run.
  match goal with |- context [bind (_validateInputs a) ?k] =>
    destruct (legacy_run_after_validate a w k) as (t & Hact & _ & ->)
  end.
  rewrite bind_ask, Hmiss. cbn [when]. unfold _printError. split.
  - intros Hc Hv. rewrite Hc, Hv. unfold core_info, core_debug, core_warning.
    rewrite !bind_emit, bind_ret, bind_emit. cbn [trace world outcome].
    exists (t ++ [LogWarning ("😢 " ++ msg);
                  LogInfo ("Project Filepath: " ++ projectFile a);
                  LogDebug ("Version (pre): '" ++ Js.show (version a) ++ "'");
                  LogInfo ("Version: " ++ Js.show (version a))])%list.
    split; [|split; [|split]].
    + rewrite existsb_app, Hact. reflexivity.
    + apply in_or_app. right. now left.
    + rewrite <- app_assoc. reflexivity.
    + reflexivity.
  - intros Hc. rewrite Hc. unfold core_error. rewrite bind_assoc, bind_emit.
    cbn [trace world outcome throw bind]. split; [reflexivity|].
    rewrite existsb_app, Hact. reflexivity.
Qed.

Lemma legacy_extractVersion_no_match (a : Action) (w : World) (content : string) :
  existsSync (versionFile a) w = true ->
  readFileSync (versionFile a) w = Some content ->
  regex_exec (versionRegex a) content = None ->
  Legacy.extractVersion a w
  = if Json.truthy (errorContinue a)
    then {| trace := (extraction_log a
                      ++ [LogWarning "😢 unable to extract version info!"])%list;
            world := w; outcome := inl TypeError |}
    else {| trace := (extraction_log a
                      ++ [LogError "😭 unable to extract version info!"])%list;
            world := w; outcome := inl (JsError "unable to extract version info!") |}.
Proof.
  intros Hex Hread Hm. unfold Legacy.extractVersion.
  rewrite bind_ask, Hex, andb_false_r. cbn [when]. rewrite bind_ret.
  unfold core_info. rewrite !bind_emit, bind_ask, Hread. cbv zeta. rewrite Hm.
  unfold _printError. destruct (Json.truthy (errorContinue a)); reflexivity.
Qed.

(** X19: In the earlier version a pattern that does not match is reported
    through the policy switch, but the next statement reads the first
    group of the missing match: with [errorContinue] set the warning is
    followed by a TypeError, without it the run ends in the error of the
    source.  Either way nothing has been spawned or requested. *)
Theorem legacy_no_match (a : Action) (w : World) (content : string) :
  Js.falsy (version a) = true -> project_missing a w = false ->
  existsSync (versionFile a) w = true ->
  readFileSync (versionFile a) w = Some content ->
  regex_exec (versionRegex a) content = None ->
  let r := Legacy.run a w in
  existsb is_activity (trace r) = false
  /\ (Json.truthy (errorContinue a) = true ->
      outcome r = inl TypeError
      /\ In (LogWarning "😢 unable to extract version info!") (trace r))
  /\ (Json.truthy (errorContinue a) = false ->
      outcome r = inl (JsError "unable to extract version info!")
      /\ In (LogError "😭 unable to extract version info!") (trace r)).
Proof.
  intros Hv Hproj Hex Hread Hm r. subst r. unfold project_missing in Hproj.
  unfold Legacy.run.
  match goal with |- context [bind (_validateInputs a) ?k] =>
    destruct (legacy_run_after_validate a w k) as (t & Hact & _ & ->)
  end.
  rewrite bind_ask, Hproj. cbn [when]. rewrite bind_ret.
  unfold core_info, core_debug. rewrite !bind_emit. cbn [trace world outcome].
  rewrite Hv.
  pose proof (@legacy_extractVersion_no_match a w content Hex Hread Hm) as E.
  destruct (Json.truthy (errorContinue a)).
  - assert (Ho : outcome (Legacy.extractVersion a w) = inl TypeError) by now rewrite E.
    rewrite (bind_throws _ _ _ Ho), E. cbn [trace world outcome]. split; [|split].
    + rewrite existsb_app, Hact. reflexivity.
    + intros _. split; [reflexivity|]. apply in_or_app. right. simpl. auto 8.
    + discriminate.
  - assert (Ho : outcome (Legacy.extractVersion a w)
                 = inl (JsError "unable to extract version info!")) by now rewrite E.
    rewrite (bind_throws _ _ _ Ho), E. cbn [trace world outcome]. split; [|split].
    + rewrite existsb_app, Hact. reflexivity.
    + discriminate.
    + intros _. split; [reflexivity|]. apply in_or_app. right. simpl. auto 8.
Qed.

(** In the earlier version the key is required whatever the registry:
    without it the Publisher logs the warning and returns, having touched
    nothing. *)
Lemma legacy_key_required (a : Action) (v : option string) (name : string) (w : World) :
  nugetKey a = "" ->
  Legacy._pushPackage a v name w
  = {| trace := [LogInfo ("✨ found new version (" ++ Js.show v ++ ") of " ++ name);
                 LogWarning "😢 NUGET_KEY not given"];
       world := w; outcome := inr tt |}.
Proof.
  intros Hkey. unfold Legacy._pushPackage, core_info, core_warning.
  rewrite bind_emit, Hkey. reflexivity.
Qed.

(** X20: In the earlier version a status other than 200 and 404 is not
    handled at all: the run ends normally after the request, without a
    log, a publish or an error. *)
Theorem legacy_other_status_ignored
    (a0 : Action) (w : World) (code : nat) (msg body : string) :
  let a := with_packageName a0 in
  https_get (Legacy.versionCheckUrl a) Legacy.requestOptions w = Response code msg body ->
  code <> 200 -> code <> 404 ->
  Legacy._checkForUpdate a0 w
  = {| trace := [LogInfo ("Package Name: " ++ packageName a);
                 LogInfo ("Url of checking Version: " ++ Legacy.versionCheckUrl a);
                 HttpGet (Legacy.versionCheckUrl a) Legacy.requestOptions];
       world := w; outcome := inr a |}.
Proof.
  intros a Hres H200 H404. unfold Legacy._checkForUpdate. fold a. cbv zeta.
  unfold core_info. rewrite !bind_emit, bind_ask, Hres.
  apply Nat.eqb_neq in H200, H404.
  unfold Legacy.on_outcome. rewrite H200, H404. reflexivity.
Qed.

Lemma legacy_push_each_continue (a : Action) (nupkg : string) (w : World) :
  Json.truthy (errorContinue a) = true ->
  outcome (Legacy.push_each a nupkg w) = inr tt
  /\ commands (trace (Legacy.push_each a nupkg w)) = [split " " (Legacy.pushCmd a nupkg)].
Proof.
  intros Hc. unfold Legacy.push_each. rewrite bind_executeCommand. cbv zeta.
  unfold core_info_stdout. rewrite bind_emit. cbn [trace world outcome].
  rewrite commands_app, commands_exec_events.
  destruct (includes "error" (Js.show_null _)) eqn:E.
  - destruct (exec_error_line_includes _ E) as (after & ->).
    unfold _printError. rewrite Hc. now split.
  - now split.
Qed.

(** X21: In the earlier version, with [errorContinue] set, an "error" in the
    output of one push does not stop the loop: every generated package,
    symbols packages included, is pushed, and the loop returns
    normally. *)
Theorem legacy_push_loop_continues (a : Action) (packages : list string) (w : World) :
  Json.truthy (errorContinue a) = true ->
  outcome (forEach (Legacy.push_each a) packages w) = inr tt
  /\ commands (trace (forEach (Legacy.push_each a) packages w))
     = map (fun nupkg => split " " (Legacy.pushCmd a nupkg)) packages.
Proof.
  intros Hc. revert w. induction packages as [|x xs IH]; intros w.
  - now split.
  - cbn [forEach map]. destruct (legacy_push_each_continue a x w Hc) as [Ho Hcmd].
    rewrite (bind_returns _ _ _ Ho). cbn [trace outcome].
    destruct (IH (world (Legacy.push_each a x w))) as [Ho' Hcmd'].
    split; [exact Ho'|]. now rewrite commands_app, Hcmd, Hcmd'.
Qed.

(** X22: In the earlier version, without [errorContinue], the first push
    whose output contains "error" ends the loop with that error. *)
Theorem legacy_push_loop_stops (a : Action) (x : string) (xs : list string) (w : World) :
  Json.truthy (errorContinue a) = false ->
  includes "error" (Js.show_null (spawn_out (Legacy.pushCmd a x) false w)) = true ->
  exists rest,
    outcome (forEach (Legacy.push_each a) (x :: xs) w) = inl (JsError ("error" ++ rest))
    /\ commands (trace (forEach (Legacy.push_each a) (x :: xs) w))
       = [split " " (Legacy.pushCmd a x)].
Proof.
  intros Hc Herr. destruct (exec_error_line_includes _ Herr) as (after & Hline).
  exists (Js.upto_line_end after). cbn [forEach].
  assert (E : outcome (Legacy.push_each a x w)
              = inl (JsError ("error" ++ Js.upto_line_end after))
              /\ commands (trace (Legacy.push_each a x w)) = [split " " (Legacy.pushCmd a x)]).
  { unfold Legacy.push_each. rewrite bind_executeCommand. cbv zeta.
    unfold core_info_stdout. rewrite bind_emit. cbn [trace world outcome].
    rewrite Herr, Hline. unfold _printError. rewrite Hc.
    unfold core_error. rewrite bind_emit. cbn [trace world outcome throw].
    split; [reflexivity|].
    rewrite commands_app, commands_exec_events. reflexivity. }
  destruct E as [Ho Hcmd]. rewrite (bind_throws _ _ _ Ho). cbn [trace outcome].
  now split.
Qed.

(** X23: The push command of the earlier version: the key and the option are
    separate arguments; with symbols enabled the trailing space gives an
    empty last argument. *)
Theorem legacy_pushCmd_argv (a : Action) (nupkg : string) :
  lacks " " nupkg = true -> lacks " " (nugetSource a) = true ->
  lacks " " (nugetKey a) = true ->
  split " " (Legacy.pushCmd a nupkg)
  = ["dotnet"; "nuget"; "push"; nupkg; "-s"; (nugetSource a ++ "/v3/index.json")%string;
     "-k"; nugetKey a; "--skip-duplicate";
     if Json.truthy (includeSymbols a) then "" else "--no-symbols"].
Proof.
  intros Hn Hs Hk.
  assert (E : Legacy.pushCmd a nupkg
              = join " " ["dotnet"; "nuget"; "push"; nupkg; "-s";
                          (nugetSource a ++ "/v3/index.json")%string;
                          "-k"; nugetKey a; "--skip-duplicate";
                          if Json.truthy (includeSymbols a) then "" else "--no-symbols"]).
  { unfold Legacy.pushCmd. destruct (Json.truthy (includeSymbols a)); simpl;
      rewrite ?append_assoc; reflexivity. }
  rewrite E. apply split_join; [discriminate|].
  destruct (Json.truthy (includeSymbols a)); simpl;
    now rewrite Hn, lacks_app, Hs, Hk.
Qed.

End LegacyTheorems.

(** ** The further properties on example platforms *)

Module Cases.

(** A platform whose toolchain cannot be started. *)
#[export] Instance no_toolchain : Platform := {|
  World := Sim.world;
  existsSync := Sim.has;
  readFileSync := Sim.read;
  readdirSync := fun w => map fst (Sim.files w);
  unlinkSync := Sim.remove;
  spawnSync := fun _ _ _ w => (None, w);
  path_resolve := fun p _ => "/work/" ++ p;
  https_get := fun _ _ w => Sim.registry w;
  JSON_parse := Sim.parse;
  RegExp_new := Sim.compile;
  EOL := String "010" ""
|}.

Definition with_registry (w : Sim.world) (o : HttpOutcome) : Sim.world :=
  {| Sim.files := Sim.files w; Sim.listing := Sim.listing w;
     Sim.push_stdout := Sim.push_stdout w; Sim.registry := o |}.

Definition w500 : Sim.world :=
  with_registry Sim.w404 (Response 500 "Internal Server Error" "").

Definition w_html : Sim.world := with_registry Sim.w404 (Response 200 "OK" "<html>").

Definition set_noBuild (a : Action) (j : json) : Action :=
  {| projectFile := projectFile a; packageName := packageName a;
     versionFile := versionFile a; versionRegex := versionRegex a;
     version := version a; tagCommit := tagCommit a; tagFormat := tagFormat a;
     nugetKey := nugetKey a; nugetSource := nugetSource a;
     includeSymbols := includeSymbols a; errorContinue := errorContinue a;
     noBuild := j; signingCert := signingCert a; githubUser := githubUser a;
     sourceName := sourceName a; sourceType := sourceType a |}.

Definition set_versionRegex (a : Action) (re : RegExp) : Action :=
  {| projectFile := projectFile a; packageName := packageName a;
     versionFile := versionFile a; versionRegex := re;
     version := version a; tagCommit := tagCommit a; tagFormat := tagFormat a;
     nugetKey := nugetKey a; nugetSource := nugetSource a;
     includeSymbols := includeSymbols a; errorContinue := errorContinue a;
     noBuild := noBuild a; signingCert := signingCert a; githubUser := githubUser a;
     sourceName := sourceName a; sourceType := sourceType a |}.

Definition set_sourceType (a : Action) (t : option SourceType) : Action :=
  {| projectFile := projectFile a; packageName := packageName a;
     versionFile := versionFile a; versionRegex := versionRegex a;
     version := version a; tagCommit := tagCommit a; tagFormat := tagFormat a;
     nugetKey := nugetKey a; nugetSource := nugetSource a;
     includeSymbols := includeSymbols a; errorContinue := errorContinue a;
     noBuild := noBuild a; signingCert := signingCert a; githubUser := githubUser a;
     sourceName := sourceName a; sourceType := t |}.

(** The public registry, already in the source listing; a stale package
    lies in the working directory. *)
Definition w_listed_nuget : Sim.world :=
  {| Sim.files := Sim.project ++ [("old.nupkg", "stale")];
     Sim.listing := "Registered Sources: 1. https://api.nuget.org/v3/index.json [Enabled]";
     Sim.push_stdout := "Your package was pushed.";
     Sim.registry := Response 404 "Not Found" "" |}.

(** The pattern [Version], which has no capture group. *)
Definition no_group : RegExp :=
  {| regex_text := "/Version/m";
     regex_exec := fun content =>
       if Str.includes "Version" content then Some [Some "Version"] else None |}.

(** A pattern that matches nothing in the project file. *)
Definition no_match : RegExp :=
  {| regex_text := "/<Release>(.*)</Release>/m";
     regex_exec := Sim.exec "<Release>" "</Release>" |}.

End Cases.

Lemma executeCommand_join_roundtrip_witness :
  trace (@_executeCommand Sim.platform "dotnet nuget list source" false Sim.w404)
  = [LogInfo "executing: [dotnet nuget list source]";
     Spawn "dotnet" ["nuget"; "list"; "source"] false].
Proof.
  exact (f_equal (@trace Sim.platform _)
           (@executeCommand_join_roundtrip Sim.platform "dotnet" ["nuget"; "list"; "source"]
              false Sim.w404 eq_refl eq_refl)).
Defined.


Lemma publisher_noBuild_never_builds_witness :
  existsb is_build
    (trace (@_pushPackage Sim.platform (Cases.set_noBuild (Sim.action "2.0.0") (JBool true))
              (Some "2.0.0") "MyLib" Sim.w404))
  = false.
Proof.
  exact (@publisher_noBuild_never_builds Sim.platform
           (Cases.set_noBuild (Sim.action "2.0.0") (JBool true))
           (Some "2.0.0") "MyLib" Sim.w404 eq_refl).
Defined.

Lemma request_failure_is_fatal_witness :
  outcome (@_checkForUpdate Sim.platform (Sim.action "1.0.0") Cases.w500)
  = inl (JsError "error: 500: Internal Server Error").
Proof.
  destruct (@request_failure_is_fatal Sim.platform (Sim.action "1.0.0") Cases.w500)
    as [H _].
  destruct (H 500 "Internal Server Error" "" eq_refl) as [Ho _];
    [discriminate | discriminate | exact Ho].
Defined.

Lemma unusable_body_throws_witness :
  outcome (@_checkForUpdate Sim.platform (Sim.action "1.0.0") Cases.w_html)
  = inl SyntaxError.
Proof.
  destruct (@unusable_body_throws Sim.platform (Sim.action "1.0.0") Cases.w_html
              "OK" "<html>" eq_refl) as [H _].
  exact (proj1 (H eq_refl)).
Defined.

Lemma undefined_version_is_published_witness :
  publisher_calls
    (trace (@_checkForUpdate Sim.platform
              (set_version (Cases.set_versionRegex (Sim.action "") Cases.no_group) None)
              Sim.w200))
  = 1.
Proof.
  destruct (@undefined_version_is_published Sim.platform
              (Cases.set_versionRegex (Sim.action "") Cases.no_group) Sim.w200
              "<Project><Version>3.4.5</Version></Project>" "OK" Sim.body_1_0_0
              [Some "Version"] ["1.0.0"]
              eq_refl eq_refl eq_refl eq_refl eq_refl eq_refl eq_refl eq_refl)
    as (pre & _ & _ & Hc & _).
  exact Hc.
Defined.

Lemma constructor_malformed_input_witness :
  outcome (@constructor Sim.platform (Sim.inputs (("TAG_COMMIT", "yes") :: Sim.defaults))
             Sim.w404)
  = inl SyntaxError.
Proof.
  rewrite (@constructor_malformed_input Sim.platform
             (Sim.inputs (("TAG_COMMIT", "yes") :: Sim.defaults)) Sim.w404
             (or_intror (or_introl eq_refl))).
  reflexivity.
Defined.

Lemma constructor_commands_witness :
  commands (trace (@constructor Sim.platform (Sim.inputs Sim.defaults) Sim.w404))
  = [["dotnet"; "nuget"; "list"; "source"];
     ["dotnet"; "nuget"; "add"; "source"; "https://api.nuget.org/v3/index.json";
      "--name=nuget.org"];
     ["dotnet"; "nuget"; "list"; "source"];
     ["dotnet"; "nuget"; "enable"; "source"; "nuget.org"]].
Proof.
  exact (proj1 (@constructor_commands Sim.platform (Sim.inputs Sim.defaults) Sim.w404
                  {| regex_text := "/<Version>(.*)</Version>/m";
                     regex_exec := Sim.exec "<Version>" "</Version>" |}
                  (JBool false) (JBool false) (JBool false) (JBool false)
                  "Registered Sources:"
                  eq_refl eq_refl eq_refl eq_refl eq_refl eq_refl)).
Defined.

Lemma constructor_without_toolchain_witness :
  outcome (@constructor Cases.no_toolchain (Sim.inputs Sim.defaults) Sim.w404)
  = inl TypeError.
Proof.
  exact (proj1 (@constructor_without_toolchain Cases.no_toolchain (Sim.inputs Sim.defaults)
                  Sim.w404
                  {| regex_text := "/<Version>(.*)</Version>/m";
                     regex_exec := Sim.exec "<Version>" "</Version>" |}
                  (JBool false) (JBool false) (JBool false) (JBool false)
                  eq_refl eq_refl eq_refl eq_refl eq_refl eq_refl)).
Defined.

Lemma symbols_filename_witness :
  Js.replace ".nupkg" ".snupkg" "Lib.1.0.0.nupkg" = "Lib.1.0.0.snupkg".
Proof. exact (symbols_filename "Lib.1.0.0" eq_refl). Defined.


Lemma push_one_success_witness :
  outcome (@push_one Sim.platform (Sim.action "2.0.0") "Lib.1.0.0.nupkg" Sim.w404) = inr tt.
Proof.
  exact (proj1 (@push_one_success Sim.platform (Sim.action "2.0.0") "Lib.1.0.0.nupkg"
                  Sim.w404 eq_refl eq_refl)).
Defined.

Lemma legacy_missing_project_file_witness :
  let a := Sim.set_errorContinue (Sim.set_projectFile (Sim.action "1.0.0") "gone.csproj")
             (JBool true) in
  outcome (@Legacy.run Sim.platform a Sim.w404)
  = outcome (@Legacy._checkForUpdate Sim.platform a Sim.w404).
Proof.
  intros a.
  destruct (proj1 (@legacy_missing_project_file Sim.platform a Sim.w404 eq_refl)
              eq_refl eq_refl) as (pre & _ & _ & _ & Ho).
  exact Ho.
Defined.

Lemma legacy_no_match_witness :
  outcome (@Legacy.run Sim.platform
             (Sim.set_errorContinue (Cases.set_versionRegex (Sim.action "") Cases.no_match)
                (JBool true))
             Sim.w404)
  = inl TypeError.
Proof.
  destruct (@legacy_no_match Sim.platform
              (Sim.set_errorContinue (Cases.set_versionRegex (Sim.action "") Cases.no_match)
                 (JBool true))
              Sim.w404 "<Project><Version>3.4.5</Version></Project>"
              eq_refl eq_refl eq_refl eq_refl eq_refl) as (_ & H & _).
  exact (proj1 (H eq_refl)).
Defined.

Lemma legacy_other_status_ignored_witness :
  exists a, outcome (@Legacy._checkForUpdate Sim.platform (Sim.action "1.0.0") Cases.w500)
            = inr a.
Proof.
  eexists.
  rewrite (@legacy_other_status_ignored Sim.platform (Sim.action "1.0.0") Cases.w500
             500 "Internal Server Error" "" eq_refl);
    [reflexivity | discriminate | discriminate].
Defined.

Lemma legacy_push_loop_continues_witness :
  outcome (forEach (@Legacy.push_each Sim.platform
                      (Sim.set_errorContinue (Sim.action "2.0.0") (JBool true)))
             ["Lib.1.0.0.nupkg"; "Lib.1.0.0.snupkg"] Sim.w_push_error)
  = inr tt.
Proof.
  exact (proj1 (@legacy_push_loop_continues Sim.platform
                  (Sim.set_errorContinue (Sim.action "2.0.0") (JBool true))
                  ["Lib.1.0.0.nupkg"; "Lib.1.0.0.snupkg"] Sim.w_push_error eq_refl)).
Defined.

Lemma legacy_push_loop_stops_witness :
  exists rest,
    outcome (forEach (@Legacy.push_each Sim.platform (Sim.action "2.0.0"))
               ["Lib.1.0.0.nupkg"; "Lib.1.0.0.snupkg"] Sim.w_push_error)
    = inl (JsError ("error" ++ rest)).
Proof.
  destruct (@legacy_push_loop_stops Sim.platform (Sim.action "2.0.0")
              "Lib.1.0.0.nupkg" ["Lib.1.0.0.snupkg"] Sim.w_push_error eq_refl eq_refl)
    as (rest & Ho & _).
  exists rest. exact Ho.
Defined.

Lemma legacy_pushCmd_argv_witness :
  Str.split " " (Legacy.pushCmd (Sim.action "2.0.0") "Lib.1.0.0.nupkg")
  = ["dotnet"; "nuget"; "push"; "Lib.1.0.0.nupkg"; "-s";
     "https://api.nuget.org/v3/index.json"; "-k"; "KEY"; "--skip-duplicate";
     "--no-symbols"].
Proof.
  exact (legacy_pushCmd_argv (Sim.action "2.0.0") "Lib.1.0.0.nupkg"
           eq_refl eq_refl eq_refl).
Defined.

Lemma tagCommit_run_witness :
  outcome (@_tagCommit Sim.platform (Sim.action "1.2.3") (Some "1.2.3") Sim.w404) = inr tt.
Proof.
  exact (f_equal (@outcome Sim.platform _)
           (@tagCommit_run Sim.platform (Sim.action "1.2.3") (Some "1.2.3") Sim.w404 eq_refl)).
Defined.

Lemma versionCheckUrl_lowercase_witness :
  versionCheckUrl (with_packageName (Sim.action "1.0.0"))
  = "https://api.nuget.org/v3-flatcontainer/mylib/index.json".
Proof.
  exact (proj1 (versionCheckUrl_lowercase (with_packageName (Sim.action "1.0.0"))
                  eq_refl eq_refl)).
Defined.

(** C2 at the failing input: the pattern [Version] matches the project
    file and has no group; the existence check is entered with the
    version [undefined]. *)
Lemma C2_version_resolution_witness :
  exists pre a',
    version a' = None
    /\ trace (@run Sim.platform (Cases.set_versionRegex (Sim.action "") Cases.no_group)
                Sim.w404)
       = (pre ++ trace (@_checkForUpdate Sim.platform a' Sim.w404))%list.
Proof.
  destruct (proj1 (proj2 (@C2_version_resolution Sim.platform
                            (Cases.set_versionRegex (Sim.action "") Cases.no_group)
                            Sim.w404))
              eq_refl eq_refl
              "<Project><Version>3.4.5</Version></Project>" [Some "Version"]
              eq_refl eq_refl eq_refl) as (pre & a' & Hv & _ & _ & Ht & _).
  exists pre, a'. split; [exact Hv | exact Ht].
Defined.

(** C7 at the failing input: no key, and a source that was already
    listed, so that it has no [sourceType]. *)
Lemma C7_unclassified_source_publishes_without_key_witness :
  existsb is_key_warning
    (trace (@_pushPackage Sim.platform
              (Cases.set_sourceType (Sim.set_nugetKey (Sim.action "2.0.0") "") None)
              (Some "2.0.0") "MyLib" Cases.w_listed_nuget))
  = false.
Proof.
  exact (proj1 (@C7_unclassified_source_publishes_without_key Sim.platform
                  (Cases.set_sourceType (Sim.set_nugetKey (Sim.action "2.0.0") "") None)
                  (Some "2.0.0") "MyLib" Cases.w_listed_nuget eq_refl eq_refl)).
Defined.

(** The whole run at the failing input of C7: the public registry is
    already listed and no key is given.  No key warning is logged; the
    stale package is deleted, and build, pack and push are run, the push
    with [-k] and no key. *)
Example scenario_listed_registry_without_key :
  let r := @main Sim.platform
             (Sim.inputs (("NUGET_KEY", "") :: ("VERSION_STATIC", "2.0.0") :: Sim.defaults))
             Cases.w_listed_nuget in
  commands (trace r)
  = [["dotnet"; "nuget"; "list"; "source"];
     ["dotnet"; "nuget"; "list"; "source"];
     ["dotnet"; "nuget"; "enable"; "source"; "nuget.org"];
     ["dotnet"; "build"; "-c"; "Release"; "src/MyLib.csproj"; "/p:Version=2.0.0"];
     ["dotnet"; "pack"; "--no-build"; "-c"; "Release"; "-p:PackageVersion=2.0.0"; "";
      "--no-build"; "-c"; "Release"; "src/MyLib.csproj"; "-o"; "."];
     ["dotnet"; "nuget"; "push"; "Lib.1.0.0.nupkg"; "-s"; "nuget.org"; "-k";
      "--skip-duplicate"; "-n"]]
  /\ existsb is_key_warning (trace r) = false
  /\ In (Unlink "old.nupkg") (trace r).
Proof. vm_compute. repeat split. auto 30. Qed.

(** The whole run at the failing input of C2: the pattern [Version] has
    no group; the run logs the version [undefined] and, the registry
    answering 404, enters the Publisher with it. *)
Example scenario_pattern_without_group :
  let r' := @run Sim.platform (Cases.set_versionRegex (Sim.action "") Cases.no_group)
              Sim.w404 in
  In (LogInfo "Version: undefined") (trace r')
  /\ In (LogInfo "✨ found new version (undefined) of MyLib") (trace r')
  /\ In ["dotnet"; "build"; "-c"; "Release"; "src/MyLib.csproj"; "/p:Version=undefined"]
        (commands (trace r')).
Proof. vm_compute. repeat split; auto 40. Qed.
